(** * Healthcare AI paper analyzer: a shallow embedding of
      [research_paper_analyzer.py] and the properties of its pipeline.

    The script is a sequential batch job: it walks a directory tree,
    extracts text from the PDF files it finds, sends every paper to an
    external Judge (a chat-completion service), stores the parsed answer in
    the paper's ['scores'] slot, and ranks and aggregates the papers.

    Modelling choices, stated once:
    - Python values that come out of [json.loads] are values of [json];
      JSON numbers are integers here (the rubric asks for 0-100 scores).
    - A Python [str] is a [string]; its characters are the 8-bit characters
      of [ascii].  [str.lower] only matters for the four characters of the
      [.pdf] suffix, for which the ASCII rule is the Unicode rule.
    - An exception is the text [str(e)] gives.  Only exceptions of class
      [Exception] are modelled, the ones [except Exception] catches;
      interpreter signals (KeyboardInterrupt, SystemExit) end the process
      and are outside the embedding.
    - Effects (stdout, the Judge request, [time.sleep], the mutation of
      [self.papers]) are threaded through an explicit state with a trace.
    - [self.papers] is only ever filled by [load_papers], which builds a new
      dict for every file: the records are pairwise distinct objects, and
      the in-place write [paper['scores'] = v] of the i-th record is the
      update of index i of the list. *)

From Stdlib Require Import ZArith QArith String Ascii List Lia.
From stdpp Require Import base list strings sorting pretty.
Import ListNotations.

#[local] Open Scope string_scope.
#[local] Open Scope Z_scope.

(** ** Exceptions and outcomes *)

Definition exn := string.

Inductive outcome (A : Type) : Type :=
| Ok (a : A)
| Raise (e : exn).
Arguments Ok {A} a.
Arguments Raise {A} e.

Definition is_ok {A} (r : outcome A) : bool :=
  match r with Ok _ => true | Raise _ => false end.

Definition obind {A B} (r : outcome A) (k : A -> outcome B) : outcome B :=
  match r with Ok a => k a | Raise e => Raise e end.

(** ** Python values produced by [json.loads] *)

#[local] Set Warnings "-register-all".

Inductive json : Type :=
| JNull
| JBool (b : bool)
| JNum (n : Z)
| JStr (s : string)
| JArr (xs : list json)
| JObj (kvs : list (string * json)).

Definition nl : string := String "010"%char EmptyString.

(** [type(v).__name__] *)
Definition type_name (v : json) : string :=
  match v with
  | JNull => "NoneType" | JBool _ => "bool" | JNum _ => "int"
  | JStr _ => "str" | JArr _ => "list" | JObj _ => "dict"
  end.

(** [bool(v)]: the truth value Python gives to [v] in a condition. *)
Definition truthy (v : json) : bool :=
  match v with
  | JNull => false
  | JBool b => b
  | JNum n => negb (n =? 0)
  | JStr s => negb (String.eqb s "")
  | JArr xs => match xs with [] => false | _ => true end
  | JObj kvs => match kvs with [] => false | _ => true end
  end.

(** The integer a [bool] or [int] stands for ([True == 1]). *)
Definition as_int (v : json) : option Z :=
  match v with
  | JBool b => Some (if b then 1 else 0)
  | JNum n => Some n
  | _ => None
  end.

Fixpoint assoc (k : string) (kvs : list (string * json)) : option json :=
  match kvs with
  | [] => None
  | (k', v) :: rest => if String.eqb k k' then Some v else assoc k rest
  end.

(** [d.get(key, default)].  Only a dict has [get]. *)
Definition dict_get (d : json) (key : string) (default : json) : outcome json :=
  match d with
  | JObj kvs => Ok (match assoc key kvs with Some v => v | None => default end)
  | _ => Raise ("'" ++ type_name d ++ "' object has no attribute 'get'")
  end.

(** [a == b] on the values that can be dict keys (None, bool, int, str);
    a list or a dict is never equal to one of those. *)
Definition py_eq (a b : json) : bool :=
  match as_int a, as_int b with
  | Some m, Some n => m =? n
  | _, _ =>
    match a, b with
    | JNull, JNull => true
    | JStr s, JStr t => String.eqb s t
    | _, _ => false
    end
  end.

(** [a < b].  Numbers (and booleans) are ordered as integers, strings
    lexicographically; every other pair of JSON scalars is rejected with a
    TypeError.  Lists are compared by Python element-wise; a score that is a
    list is not ordered by this embedding, which raises there too. *)
Definition py_lt (a b : json) : outcome bool :=
  match as_int a, as_int b with
  | Some m, Some n => Ok (m <? n)
  | _, _ =>
    match a, b with
    | JStr s, JStr t => Ok (String.ltb s t)
    | _, _ => Raise ("'<' not supported between instances of '"
                     ++ type_name a ++ "' and '" ++ type_name b ++ "'")
    end
  end.

(** ** Paper records *)

Record paper := Paper {
  filename : string;
  filepath : string;
  content : string;
  scores : json
}.

Definition set_scores (p : paper) (v : json) : paper :=
  {| filename := filename p; filepath := filepath p;
     content := content p; scores := v |}.

(** ** [sorted(iterable, key=..., reverse=...)]

    CPython computes every key first, and for [reverse=True] reverses the
    list, sorts it stably in ascending order with [<] only, and reverses the
    result, which keeps equal keys in their original order.  The ascending
    stable sort is an insertion sort here: whenever no comparison raises,
    the result of a stable sort is determined by the keys. *)

Fixpoint map_outcome {A B} (f : A -> outcome B) (l : list A) : outcome (list B) :=
  match l with
  | [] => Ok []
  | x :: rest =>
    obind (f x) (fun y => obind (map_outcome f rest) (fun ys => Ok (y :: ys)))
  end.

Fixpoint filter_outcome {A} (f : A -> outcome bool) (l : list A) : outcome (list A) :=
  match l with
  | [] => Ok []
  | x :: rest =>
    obind (f x) (fun b =>
    obind (filter_outcome f rest) (fun ys => Ok (if b then x :: ys else ys)))
  end.

(** Insert [x], which came before every element of [l] in the input: it
    goes in front of the first element that is not smaller. *)
Fixpoint insert_key {A} (x : json * A) (l : list (json * A))
  : outcome (list (json * A)) :=
  match l with
  | [] => Ok [x]
  | y :: rest =>
    obind (py_lt (fst y) (fst x)) (fun lt =>
      if lt then obind (insert_key x rest) (fun r => Ok (y :: r))
      else Ok (x :: y :: rest))
  end.

Fixpoint sort_keys {A} (l : list (json * A)) : outcome (list (json * A)) :=
  match l with
  | [] => Ok []
  | x :: rest => obind (sort_keys rest) (insert_key x)
  end.

Definition sorted {A} (l : list A) (key : A -> outcome json) (reverse : bool)
  : outcome (list A) :=
  obind (map_outcome (fun x => obind (key x) (fun k => Ok (k, x))) l) (fun kl =>
  obind (sort_keys (if reverse then rev kl else kl)) (fun s =>
  Ok (map snd (if reverse then rev s else s)))).

(** ** [rank_papers] *)

Definition rank_papers (papers : list paper) : outcome (list paper) :=
  obind (filter_outcome (fun p =>
           obind (dict_get (scores p) "meets_inclusion_criteria" (JBool false))
                 (fun v => Ok (truthy v))) papers) (fun included_papers =>
  sorted included_papers
         (fun x => dict_get (scores x) "overall_score" (JNum 0))
         true).

(** ** The domain counts of [generate_detailed_review]

    [domains] is a Python dict from the [healthcare_domain] value to a
    count; it is an association list in insertion order, looked up with
    [==].  A list or a dict cannot be a key: Python raises TypeError. *)

Definition hashable (v : json) : bool :=
  match v with JArr _ | JObj _ => false | _ => true end.

Fixpoint counts_get (d : list (json * Z)) (k : json) (default : Z) : Z :=
  match d with
  | [] => default
  | (k', n) :: rest => if py_eq k' k then n else counts_get rest k default
  end.

Fixpoint counts_set (d : list (json * Z)) (k : json) (n : Z)
  : list (json * Z) :=
  match d with
  | [] => [(k, n)]
  | (k', n') :: rest =>
    if py_eq k' k then (k', n) :: rest else (k', n') :: counts_set rest k n
  end.

(** One iteration of [for paper in ranked_papers]. *)
Definition count_domain (domains : list (json * Z)) (p : paper)
  : outcome (list (json * Z)) :=
  obind (dict_get (scores p) "healthcare_domain" (JStr "Unspecified"))
    (fun domain =>
       if hashable domain
       then Ok (counts_set domains domain (counts_get domains domain 0 + 1))
       else Raise ("unhashable type: '" ++ type_name domain ++ "'")).

Fixpoint count_domains (domains : list (json * Z)) (ranked_papers : list paper)
  : outcome (list (json * Z)) :=
  match ranked_papers with
  | [] => Ok domains
  | p :: rest =>
    obind (count_domain domains p) (fun d => count_domains d rest)
  end.

(** ** String helpers of the Python standard library *)

(** [c.lower()] on one character. *)
Definition lower_ascii (c : ascii) : ascii :=
  let n := nat_of_ascii c in
  if ((65 <=? n) && (n <=? 90))%nat then ascii_of_nat (n + 32) else c.

Fixpoint lower (s : string) : string :=
  match s with
  | EmptyString => EmptyString
  | String c rest => String (lower_ascii c) (lower rest)
  end.

(** [s.endswith(suffix)] *)
Definition endswith (s suffix : string) : bool :=
  let n := String.length s in
  let m := String.length suffix in
  ((m <=? n)%nat && String.eqb (substring (n - m) m s) suffix)%bool.

(** [os.path.join(a, p)] of [posixpath]. *)
Definition os_path_join (a p : string) : string :=
  if String.prefix "/" p then p
  else if (String.eqb a "" || endswith a "/")%bool then a ++ p
  else a ++ "/" ++ p.

(** [sep.join(items)] and [str(n)]. *)
Definition join (sep : string) (items : list string) : string :=
  String.concat sep items.

Definition str_nat (n : nat) : string := pretty n.

(** ** The outside world

    The file system under the papers directory is a tree.  A directory is
    either listable ([os.listdir] returns its entries, in the order the
    operating system gives them) or not ([os.listdir] raises).  A file that
    is not a directory carries what [PdfReader] makes of it: the constructor
    raises, or gives pages whose [extract_text] raises or returns text.
    The tree is finite, and its depth stays below the recursion limit of
    the interpreter. *)

Definition pdf : Type := outcome (list (outcome string)).

Inductive entry : Type :=
| File (doc : pdf)
| Dir (d : folder)
with folder : Type :=
| Listing (items : list (string * entry))
| Unlistable (e : exn).

(** What the process does that can be observed from outside, in order. *)
Inductive event : Type :=
| EPrint (text : string)
| ECreate (slr_prompt : string) (user_content : string)
| ESleep (seconds : Q).

(** The rubric of [__init__]. *)
Record slr := Slr {
  title : string;
  research_questions : list string;
  inclusion_criteria : list string;
  exclusion_criteria : list string;
  time_period : string;
  data_extraction_fields : list string
}.

Definition slr_info : slr := {|
  title := "Healthcare AI Implementation Analysis: A Systematic Literature Review";
  research_questions := [
    "RQ1: What are the current implementations and applications of AI technologies across different healthcare domains?";
    "RQ2: How do AI-driven systems impact clinical decision-making and patient care outcomes?";
    "RQ3: What are the key challenges and success factors in implementing AI solutions in healthcare settings?"
  ];
  inclusion_criteria := [
    "IC1: Studies focusing on practical AI implementation in healthcare settings";
    "IC2: Research presenting empirical evidence or case studies of AI applications";
    "IC3: Papers discussing technical implementation details or deployment strategies"
  ];
  exclusion_criteria := [
    "EC1: Non-peer-reviewed materials (books, keynotes, technical reports, theses)";
    "EC2: Literature reviews or survey papers";
    "EC3: Duplicate studies or similar papers by same authors";
    "EC4: Theoretical papers without practical implementation";
    "EC5: Studies not focused on healthcare applications";
    "EC6: Grey literature, editorials, or opinion pieces"
  ];
  time_period := "2019-2025";
  data_extraction_fields := [
    "AI techniques used"; "Healthcare domain"; "Implementation scope";
    "Technical infrastructure"; "Performance metrics"; "Clinical impact";
    "Implementation challenges"; "Success factors"
  ]
|}.

Definition slr_prompt : string :=
  "SYSTEMATIC LITERATURE REVIEW INFORMATION:" ++ nl
  ++ "Title: " ++ title slr_info ++ nl ++ nl
  ++ "Research Questions:" ++ nl
  ++ join nl (research_questions slr_info) ++ nl ++ nl
  ++ "Inclusion Criteria:" ++ nl
  ++ join nl (inclusion_criteria slr_info) ++ nl ++ nl
  ++ "Exclusion Criteria:" ++ nl
  ++ join nl (exclusion_criteria slr_info) ++ nl ++ nl
  ++ "Time Period: " ++ time_period slr_info ++ nl ++ nl
  ++ "Data Extraction Fields: " ++ join ", " (data_extraction_fields slr_info).

(** The judgment stored when the Judge call of a paper fails. *)
Definition error_scores (e : exn) : json :=
  JObj [("error", JStr e);
        ("meets_inclusion_criteria", JBool false);
        ("overall_score", JNum 0);
        ("recommendation", JStr "Error")].

(** [min(len(reader.pages), max_pages) if max_pages else len(reader.pages)]:
    the condition is the truth value of [max_pages], false for [None] and
    for [0]. *)
Definition pages_to_read (n_pages : nat) (max_pages : option Z) : Z :=
  match max_pages with
  | Some m => if negb (m =? 0) then Z.min (Z.of_nat n_pages) m
              else Z.of_nat n_pages
  | None => Z.of_nat n_pages
  end.

(** [range(n)] *)
Definition range (n : Z) : list nat := seq 0 (Z.to_nat n).

(** [for i in range(...): text += reader.pages[i].extract_text() + "\n"] *)
Fixpoint read_pages (pages : list (outcome string)) (indices : list nat)
  (text : string) : outcome string :=
  match indices with
  | [] => Ok text
  | i :: rest =>
    match pages !! i with
    | Some (Ok t) => read_pages pages rest (text ++ t ++ nl)
    | Some (Raise e) => Raise e
    | None => Raise "list index out of range"
    end
  end.

(** The first 7000 characters, [content[:7000]]. *)
Definition excerpt (content : string) : string :=
  substring 0 (Z.to_nat 7000) content.

Definition user_content (content : string) : string :=
  "Here is a research paper to analyze (extracted content from the beginning of the paper):"
  ++ nl ++ nl ++ excerpt content.

Definition half_second : Q := 1 # 2.

(** ** The analyzer: state and effects

    [service] is the state of the external Judge; [create] is the request
    [client.chat.completions.create(...)] followed by the read of
    [response.choices[0].message.content]: it raises or gives the text of
    the answer.  The model name, temperature, token cap, response format and
    the fixed instructions around [slr_prompt] are constants of the request;
    the two parts that vary are passed.  [json_loads] is [json.loads]. *)

Section Analyzer.

Variable service : Type.
Variable create : service -> string -> string -> outcome string * service.
Variable json_loads : string -> outcome json.

Record state := State {
  papers : list paper;
  trace : list event;
  client : service
}.

Definition M (A : Type) : Type := state -> outcome A * state.

Definition ret {A} (a : A) : M A := fun s => (Ok a, s).

Definition bind {A B} (m : M A) (k : A -> M B) : M B :=
  fun s => match m s with
           | (Ok a, s') => k a s'
           | (Raise e, s') => (Raise e, s')
           end.

#[local] Notation "x <- m ;; k" := (bind m (fun x => k))
  (at level 20, m at level 99, k at level 200).
#[local] Notation "m ;; k" := (bind m (fun _ => k))
  (at level 100, k at level 200, right associativity).

(** A pure computation that may raise. *)
Definition lift {A} (r : outcome A) : M A := fun s => (r, s).

Definition raise {A} (e : exn) : M A := lift (Raise e).

(** [try: body except Exception as e: handler e].  What the body did before
    it raised stays done. *)
Definition try_except {A} (body : M A) (handler : exn -> M A) : M A :=
  fun s => match body s with
           | (Ok a, s') => (Ok a, s')
           | (Raise e, s') => handler e s'
           end.

Definition emit (ev : event) : M unit :=
  fun s => (Ok tt, {| papers := papers s; trace := trace s ++ [ev];
                      client := client s |}).

Definition print (text : string) : M unit := emit (EPrint text).

Definition sleep (seconds : Q) : M unit := emit (ESleep seconds).

Definition get_papers : M (list paper) := fun s => (Ok (papers s), s).

Definition put_papers (ps : list paper) : M unit :=
  fun s => (Ok tt, {| papers := ps; trace := trace s; client := client s |}).

(** [client.chat.completions.create(...)] and the content of its answer. *)
Definition chat_completions_create (user : string) : M string :=
  fun s =>
    let s1 := {| papers := papers s;
                 trace := trace s ++ [ECreate slr_prompt user];
                 client := client s |} in
    let (r, c') := create (client s) slr_prompt user in
    (r, {| papers := papers s1; trace := trace s1; client := c' |}).

(** ** [extract_text_from_pdf] *)

Definition extract_text_from_pdf (PdfReader : string -> pdf)
  (pdf_path : string) (max_pages : option Z) : M string :=
  try_except
    (reader <- lift (PdfReader pdf_path) ;;
     text <- lift (read_pages reader
                     (range (pages_to_read (length reader) max_pages)) "") ;;
     ret text)
    (fun e =>
       print ("Error extracting text from " ++ pdf_path ++ ": " ++ e) ;;
       ret "").

(** ** [load_papers] *)

(** [self.papers.append({...})] *)
Definition append_paper (p : paper) : M unit :=
  ps <- get_papers ;; put_papers (ps ++ [p]).

(** [for item in items: body item] *)
Definition for_each {A} (body : A -> M unit) : list A -> M unit :=
  fix loop (items : list A) : M unit :=
    match items with
    | [] => ret tt
    | item :: rest => body item ;; loop rest
    end.

Fixpoint process_directory (directory : string) (d : folder) {struct d}
  : M unit :=
  try_except
    (match d with
     | Unlistable e => raise e
     | Listing items =>
       for_each
         (fun '(item, e) =>
            let item_path := os_path_join directory item in
            match e with
            | Dir sub => process_directory item_path sub
            | File doc =>
              if endswith (lower item) ".pdf" then
                print ("Processing: " ++ item_path) ;;
                paper_text <- extract_text_from_pdf (fun _ => doc) item_path
                                (Some 10) ;;
                if negb (String.eqb paper_text "") then
                  append_paper {| filename := item; filepath := item_path;
                                  content := paper_text; scores := JObj [] |}
                else ret tt
              else ret tt
            end)
         items
     end)
    (fun e => print ("Error accessing directory " ++ directory ++ ": " ++ e)).

Definition load_papers (fs : folder) (paper_dir : string) : M bool :=
  put_papers [] ;;
  print ("Scanning for papers in " ++ paper_dir ++ " and all subdirectories...") ;;
  process_directory paper_dir fs ;;
  ps <- get_papers ;;
  print ("Loaded " ++ str_nat (length ps) ++ " research papers from "
         ++ paper_dir ++ " and subdirectories") ;;
  ret (0 <? length ps)%nat.

(** ** [analyze_papers] *)

(** [paper['scores'] = v] for the paper at index [i] of [self.papers]. *)
Definition store_scores (i : nat) (v : json) : M unit :=
  fun s =>
    match papers s !! i with
    | Some p =>
      (Ok tt, {| papers := <[i := set_scores p v]> (papers s);
                 trace := trace s; client := client s |})
    | None => (Raise "list index out of range", s)
    end.

(** The body of [for i, paper in enumerate(self.papers)]. *)
Definition analyze_paper (i : nat) (p : paper) : M unit :=
  all_papers <- get_papers ;;
  print ("Analyzing paper " ++ str_nat (i + 1) ++ "/"
         ++ str_nat (length all_papers)
         ++ ": " ++ filename p) ;;
  try_except
    (response <- chat_completions_create (user_content (content p)) ;;
     analysis <- lift (json_loads response) ;;
     store_scores i analysis ;;
     sleep half_second)
    (fun e =>
       print ("Error analyzing paper " ++ filename p ++ ": " ++ e) ;;
       store_scores i (error_scores e)).

(** The loop reads the record at the next index of the current list until
    the index runs past its end. *)
Fixpoint for_papers (count i : nat) : M unit :=
  match count with
  | O => ret tt
  | S count' =>
    ps <- get_papers ;;
    match ps !! i with
    | Some p => analyze_paper i p ;; for_papers count' (S i)
    | None => ret tt
    end
  end.

Definition analyze_papers : M bool :=
  ps <- get_papers ;;
  match ps with
  | [] => print "Error: No papers loaded. Cannot analyze." ;; ret false
  | _ =>
    print (nl ++ "Analyzing " ++ str_nat (length ps)
           ++ " papers for healthcare AI implementation...") ;;
    for_papers (length ps) 0 ;;
    ret true
  end.

End Analyzer.

Arguments papers {service} s.
Arguments trace {service} s.
Arguments client {service} s.
Arguments State {service} papers trace client.
Arguments extract_text_from_pdf {service} PdfReader pdf_path max_pages s.
Arguments for_each {service A} body items s.
Arguments process_directory {service} directory d s.
Arguments load_papers {service} fs paper_dir s.
Arguments analyze_paper {service} create json_loads i p s.
Arguments for_papers {service} create json_loads count i s.
Arguments analyze_papers {service} create json_loads s.

(** ** Vocabulary of the statements *)

(** The value a judgment holds under [key], if the judgment is a dict that
    has the key. *)
Definition field (key : string) (p : paper) : option json :=
  match scores p with
  | JObj kvs => assoc key kvs
  | _ => None
  end.

(** The judgment says [meets_inclusion_criteria] is [true]. *)
Definition meets_inclusion_criteria (p : paper) : bool :=
  match field "meets_inclusion_criteria" p with
  | Some (JBool true) => true
  | _ => false
  end.

(** The [overall_score] of the judgment, 0 when the judgment has none. *)
Definition overall_score (p : paper) : Z :=
  match field "overall_score" p with
  | Some (JNum n) => n
  | _ => 0
  end.

(** The record carries a judgment: its ['scores'] slot is a dict in which
    [meets_inclusion_criteria], when present, is a boolean and
    [overall_score], when present, is an integer (the two fields of the
    JudgmentRecord that ranking reads). *)
Definition judged (p : paper) : bool :=
  match scores p with
  | JObj kvs =>
    match assoc "meets_inclusion_criteria" kvs with
    | None | Some (JBool _) => true
    | _ => false
    end
    &&
    match assoc "overall_score" kvs with
    | None | Some (JNum _) => true
    | _ => false
    end
  | _ => false
  end.

(** The ascending stable insertion sort on integer keys, without the
    possibility of a failing comparison. *)
Fixpoint insert_by {A} (k : A -> Z) (x : A) (l : list A) : list A :=
  match l with
  | [] => [x]
  | y :: rest => if k y <? k x then y :: insert_by k x rest else x :: y :: rest
  end.

Fixpoint sort_by {A} (k : A -> Z) (l : list A) : list A :=
  match l with
  | [] => []
  | x :: rest => insert_by k x (sort_by k rest)
  end.

(** *** Extraction *)

(** Reading or parsing fails: the [PdfReader] constructor raises, or
    [extract_text] raises on one of the pages that are read. *)
Definition extraction_fails (doc : pdf) (max_pages : option Z) : Prop :=
  match doc with
  | Raise _ => True
  | Ok pages =>
    exists (i : nat) e,
      Z.of_nat i < pages_to_read (length pages) max_pages
      /\ pages !! i = Some (Raise e)
  end.

(** The texts of the pages, when every one of them can be extracted. *)
Fixpoint page_texts (pages : list (outcome string)) : option (list string) :=
  match pages with
  | [] => Some []
  | Ok t :: rest => option_map (cons t) (page_texts rest)
  | Raise _ :: _ => None
  end.

(** Every page followed by a newline. *)
Fixpoint concat_pages (texts : list string) : string :=
  match texts with
  | [] => ""
  | t :: rest => t ++ nl ++ concat_pages rest
  end.

(** The text of the first ten pages of a document that opens and whose
    first ten pages can be read. *)
Definition capped_text (doc : pdf) : option string :=
  match doc with
  | Ok pages => option_map concat_pages (page_texts (take 10 pages))
  | Raise _ => None
  end.

(** What the page loop computes on the pages it reads. *)
Fixpoint page_text (pages : list (outcome string)) (text : string)
  : outcome string :=
  match pages with
  | [] => Ok text
  | Ok t :: rest => page_text rest (text ++ t ++ nl)
  | Raise e :: _ => Raise e
  end.

(** The body of the [try] of [extract_text_from_pdf] on a document. *)
Definition extraction (doc : pdf) (max_pages : option Z) : outcome string :=
  obind doc (fun pages =>
    page_text (take (Z.to_nat (pages_to_read (length pages) max_pages)) pages)
              "").

(** *** Traversal *)

(** What the traversal comes across, in order: a file whose name ends in
    [.pdf] whatever the case of its letters, or a directory that cannot be
    listed. *)
Inductive visit : Type :=
| Found (item item_path : string) (doc : pdf)
| Denied (directory : string) (e : exn).

Fixpoint walk (directory : string) (d : folder) {struct d} : list visit :=
  match d with
  | Unlistable e => [Denied directory e]
  | Listing items =>
    flat_map
      (fun '(item, e) =>
         match e with
         | Dir sub => walk (os_path_join directory item) sub
         | File doc =>
           if endswith (lower item) ".pdf"
           then [Found item (os_path_join directory item) doc]
           else []
         end)
      items
  end.

Definition found_file (v : visit) : option (string * string * pdf) :=
  match v with
  | Found item item_path doc => Some (item, item_path, doc)
  | Denied _ _ => None
  end.

(** The PDF files of the tree: name, path and document. *)
Definition pdf_files (directory : string) (d : folder)
  : list (string * string * pdf) :=
  omap found_file (walk directory d).

(** The record a PDF file gives: none when it cannot be read or its text
    is empty. *)
Definition record_of (f : string * string * pdf) : option paper :=
  let '(item, item_path, doc) := f in
  match capped_text doc with
  | Some t =>
    if String.eqb t "" then None
    else Some {| filename := item; filepath := item_path;
                 content := t; scores := JObj [] |}
  | None => None
  end.

(** The tree has, at [path], a directory that cannot be listed. *)
Inductive denied_in : string -> folder -> string -> exn -> Prop :=
| denied_here directory e :
    denied_in directory (Unlistable e) directory e
| denied_below directory items item sub path e :
    In (item, Dir sub) items ->
    denied_in (os_path_join directory item) sub path e ->
    denied_in directory (Listing items) path e.

(** The tree has the file [item] at [item_path], in a directory that is
    reached from the root through directories that can be listed. *)
Inductive file_in : string -> folder -> string -> string -> pdf -> Prop :=
| file_here directory items item doc :
    In (item, File doc) items ->
    file_in directory (Listing items) item (os_path_join directory item) doc
| file_below directory items name sub item item_path doc :
    In (name, Dir sub) items ->
    file_in (os_path_join directory name) sub item item_path doc ->
    file_in directory (Listing items) item item_path doc.

(** The tree without its subdirectories that cannot be listed. *)
Fixpoint prune (d : folder) : folder :=
  match d with
  | Unlistable e => Unlistable e
  | Listing items =>
    Listing
      (flat_map
         (fun '(item, e) =>
            match e with
            | File doc => [(item, File doc)]
            | Dir sub =>
              match sub with
              | Unlistable _ => []
              | Listing _ => [(item, Dir (prune sub))]
              end
            end)
         items)
  end.

(** What a visit adds to [self.papers] and to the trace. *)
Definition visit_papers (v : visit) : list paper :=
  match v with
  | Found item item_path doc =>
    match extraction doc (Some 10) with
    | Ok t =>
      if negb (String.eqb t "")
      then [{| filename := item; filepath := item_path;
               content := t; scores := JObj [] |}]
      else []
    | Raise _ => []
    end
  | Denied _ _ => []
  end.

Definition visit_events (v : visit) : list event :=
  match v with
  | Found item item_path doc =>
    EPrint ("Processing: " ++ item_path)
    :: match extraction doc (Some 10) with
       | Ok _ => []
       | Raise e =>
         [EPrint ("Error extracting text from " ++ item_path ++ ": " ++ e)]
       end
  | Denied directory e =>
    [EPrint ("Error accessing directory " ++ directory ++ ": " ++ e)]
  end.

(** *** The Judge and the trace *)

(** The delay [time.sleep(0.5)] shows in the trace before the next request
    (or the end). *)
Fixpoint delay_follows (tr : list event) : bool :=
  match tr with
  | [] => false
  | ECreate _ _ :: _ => false
  | ESleep d :: rest => Qeq_bool d half_second || delay_follows rest
  | EPrint _ :: rest => delay_follows rest
  end.

(** Every request of the trace is followed by the delay. *)
Fixpoint every_call_delayed (tr : list event) : bool :=
  match tr with
  | [] => true
  | ECreate _ _ :: rest => delay_follows rest && every_call_delayed rest
  | _ :: rest => every_call_delayed rest
  end.

(** The requests of the trace that [ok] marks, in order, are followed by
    the delay; [ok] has one mark per request. *)
Fixpoint marked_calls_delayed (ok : list bool) (tr : list event) : bool :=
  match tr with
  | [] => true
  | ECreate _ _ :: rest =>
    match ok with
    | [] => false
    | b :: ok' =>
      (if b then delay_follows rest else true) && marked_calls_delayed ok' rest
    end
  | _ :: rest => marked_calls_delayed ok rest
  end.

Definition is_request (ev : event) : bool :=
  match ev with ECreate _ _ => true | _ => false end.

Definition is_delay (ev : event) : bool :=
  match ev with ESleep _ => true | _ => false end.

(** No judgment: the empty dict [load_papers] leaves in the ['scores']
    slot, or [None]. *)
Definition absent (v : json) : bool :=
  match v with
  | JObj [] | JNull => true
  | _ => false
  end.

(** The judgment a Judge outcome leaves in the ['scores'] slot. *)
Definition judgment (r : outcome json) : json :=
  match r with
  | Ok analysis => analysis
  | Raise e => error_scores e
  end.

Section Judge.

Variable service : Type.
Variable create : service -> string -> string -> outcome string * service.
Variable json_loads : string -> outcome json.

(** The Judge call of one paper: the request and the parse of the answer.
    It fails when the request raises or the answer cannot be parsed. *)
Definition judge (c : service) (p : paper) : outcome json * service :=
  let (r, c') := create c slr_prompt (user_content (content p)) in
  (obind r json_loads, c').

(** The outcomes of the Judge calls of the papers, made in order. *)
Fixpoint verdicts (c : service) (ps : list paper) : list (outcome json) :=
  match ps with
  | [] => []
  | p :: rest => let (r, c') := judge c p in r :: verdicts c' rest
  end.

Fixpoint service_after (c : service) (ps : list paper) : service :=
  match ps with
  | [] => c
  | p :: rest => service_after (snd (judge c p)) rest
  end.

(** What one iteration of the loop adds to the trace. *)
Definition paper_events (total i : nat) (p : paper) (r : outcome json)
  : list event :=
  EPrint ("Analyzing paper " ++ str_nat (i + 1) ++ "/" ++ str_nat total
          ++ ": " ++ filename p)
  :: ECreate slr_prompt (user_content (content p))
  :: match r with
     | Ok _ => [ESleep half_second]
     | Raise e => [EPrint ("Error analyzing paper " ++ filename p ++ ": " ++ e)]
     end.

Fixpoint loop_events (total i : nat) (ps : list paper)
  (rs : list (outcome json)) : list event :=
  match ps, rs with
  | p :: ps', r :: rs' =>
    app (paper_events total i p r) (loop_events total (S i) ps' rs')
  | _, _ => []
  end.

(** The papers after the loop: every record with the judgment of its own
    Judge call in its ['scores'] slot. *)
Definition judged_papers (c : service) (ps : list paper) : list paper :=
  zip_with (fun p r => set_scores p (judgment r)) ps (verdicts c ps).

End Judge.

Arguments judge {service} create json_loads c p.
Arguments verdicts {service} create json_loads c ps.
Arguments service_after {service} create json_loads c ps.
Arguments judged_papers {service} create json_loads c ps.

(** *** Domain counts *)

(** The domain value a paper contributes: the [healthcare_domain] of its
    judgment, the label "Unspecified" when the judgment has none. *)
Definition healthcare_domain (p : paper) : json :=
  match field "healthcare_domain" p with
  | Some v => v
  | None => JStr "Unspecified"
  end.

(** The judgment is a dict whose domain value can be a dict key. *)
Definition countable_domain (p : paper) : bool :=
  match scores p with
  | JObj _ => hashable (healthcare_domain p)
  | _ => false
  end.

(** [sum(domains.values())] *)
Definition sum_values (domains : list (json * Z)) : Z :=
  fold_right Z.add 0 (map snd domains).

(** The number of papers of a list whose domain value equals [k]. *)
Definition papers_of_domain (k : json) (ps : list paper) : Z :=
  Z.of_nat (length (List.filter (fun p => py_eq (healthcare_domain p) k) ps)).

(** ** Concrete inputs used by the witnesses *)

Definition paper_A : paper :=
  Paper "a.pdf" "papers/a.pdf" "text of a"
    (JObj [("meets_inclusion_criteria", JBool true); ("overall_score", JNum 40)]).
Definition paper_B : paper :=
  Paper "b.pdf" "papers/b.pdf" "text of b"
    (JObj [("meets_inclusion_criteria", JBool true); ("overall_score", JNum 90)]).
Definition paper_C : paper :=
  Paper "c.pdf" "papers/c.pdf" "text of c"
    (JObj [("meets_inclusion_criteria", JBool true); ("overall_score", JNum 90)]).


(** A two-page document and a state with nothing loaded. *)
Definition two_pages : pdf := Ok [Ok "Abstract"; Ok "Introduction"].

Definition idle : state unit := State [] [] tt.

(** A document whose second page cannot be extracted. *)
Definition broken_page : pdf := Ok [Ok "Abstract"; Raise "Invalid stream"].

(** A papers directory with two PDF files (one in a subdirectory, with an
    upper-case extension), a text file, and a subdirectory that cannot be
    listed. *)
Definition papers_tree : folder :=
  Listing [("a.pdf", File two_pages);
           ("notes.txt", File (Raise "EOF marker not found"));
           ("locked", Dir (Unlistable "Permission denied"));
           ("cardiology", Dir (Listing [("B.PDF", File (Ok [Ok "Methods"]))]))].

(** The same directory when every subdirectory can be listed. *)
Definition open_tree : folder :=
  Listing [("a.pdf", File two_pages);
           ("notes.txt", File (Raise "EOF marker not found"));
           ("cardiology", Dir (Listing [("B.PDF", File (Ok [Ok "Methods"]))]))].

(** A Judge whose first request fails and whose later requests answer with
    the empty JSON object; the state counts the requests. *)
Definition flaky_create (served : nat) (system user : string)
  : outcome string * nat :=
  match served with
  | O => (Raise "Connection error.", 1%nat)
  | S _ => (Ok "{}", S served)
  end.

(** [json.loads] on the two answers used here. *)
Definition loads_object (response : string) : outcome json :=
  if String.eqb response "{}" then Ok (JObj [])
  else Raise "Expecting value: line 1 column 1 (char 0)".

Definition two_loaded : state nat :=
  State [Paper "a.pdf" "papers/a.pdf" "Abstract" (JObj []);
         Paper "B.PDF" "papers/cardiology/B.PDF" "Methods" (JObj [])]
        [] 0%nat.

Definition one_loaded : state nat :=
  State [Paper "a.pdf" "papers/a.pdf" "Abstract" (JObj [])] [] 0%nat.

(** The trace of a batch of one paper whose Judge call fails. *)
Definition failed_run_trace : list event :=
  trace (snd (analyze_papers flaky_create loads_object one_loaded)).

Definition paper_D : paper :=
  Paper "d.pdf" "papers/d.pdf" "text of d"
    (JObj [("meets_inclusion_criteria", JBool true); ("overall_score", JNum 70);
           ("healthcare_domain", JStr "Radiology")]).

(** * The rest of the analyzer

    The functions below are the parts of [generate_report],
    [visualize_results], [generate_detailed_review] and [main] that compute
    on the records.  The calls into pandas and matplotlib, the rendering of
    values into Markdown and the writes to files are outside the
    embedding; what is kept is every place where the code reads a judgment,
    and so every place where a judgment of an unexpected shape makes it
    raise. *)

(** ** More of the Python standard library *)

(** [s.rfind(c)]: the last index of [c], or -1. *)
Fixpoint rfind (c : ascii) (s : string) : Z :=
  match s with
  | EmptyString => -1
  | String a rest =>
    let r := rfind c rest in
    if 0 <=? r then r + 1 else if Ascii.eqb a c then 0 else -1
  end.

(** [s[i:]] for an index that is not negative. *)
Definition slice_from (i : Z) (s : string) : string :=
  substring (Z.to_nat i) (String.length s - Z.to_nat i) s.

(** [os.path.basename(p)] of [posixpath]:
    [i = p.rfind('/') + 1; return p[i:]]. *)
Definition os_path_basename (p : string) : string :=
  slice_from (rfind "/" p + 1) p.

(** [l[:n]] on a list: a negative [n] counts from the end. *)
Definition slice_to {A} (n : Z) (l : list A) : list A :=
  if 0 <=? n then take (Z.to_nat n) l
  else take (length l - Z.to_nat (- n)) l.

(** The characters of a string, each as a string of length one. *)
Fixpoint chars (s : string) : list string :=
  match s with
  | EmptyString => []
  | String c rest => String c EmptyString :: chars rest
  end.

(** [for x in v]: what iterating a JSON value yields.  A list yields its
    elements, a string its characters, a dict its keys; nothing else can be
    iterated. *)
Definition py_iter (v : json) : outcome (list json) :=
  match v with
  | JArr xs => Ok xs
  | JStr s => Ok (map JStr (chars s))
  | JObj kvs => Ok (map (fun kv => JStr (fst kv)) kvs)
  | _ => Raise ("'" ++ type_name v ++ "' object is not iterable")
  end.

(** The items of [sep.join(...)] must all be strings. *)
Fixpoint str_items (i : nat) (items : list json) : outcome (list string) :=
  match items with
  | [] => Ok []
  | JStr s :: rest => obind (str_items (S i) rest) (fun ss => Ok (s :: ss))
  | v :: _ => Raise ("sequence item " ++ str_nat i
                     ++ ": expected str instance, " ++ type_name v ++ " found")
  end.

(** [sep.join(v)] on a JSON value. *)
Definition py_join (sep : string) (v : json) : outcome string :=
  match v with
  | JArr _ | JStr _ | JObj _ =>
    obind (py_iter v) (fun items =>
    obind (str_items 0 items) (fun ss => Ok (join sep ss)))
  | _ => Raise "can only join an iterable"
  end.

(** ** [generate_report]: the rows handed to the data frame *)

Record report_row := ReportRow {
  row_filename : string;
  row_filepath : string;
  row_meets_inclusion : json;
  row_rq1 : json;
  row_rq2 : json;
  row_rq3 : json;
  row_implementation_quality : json;
  row_overall_score : json;
  row_recommendation : json;
  row_healthcare_domain : json;
  row_ai_techniques : string;
  row_summary : json
}.

(** The body of [for paper in self.papers] of [generate_report]. *)
Definition paper_data (p : paper) : outcome report_row :=
  let scores := scores p in
  obind (dict_get scores "meets_inclusion_criteria" (JBool false)) (fun meets =>
  obind (dict_get scores "relevance_to_rq1" (JNum 0)) (fun rq1 =>
  obind (dict_get scores "relevance_to_rq2" (JNum 0)) (fun rq2 =>
  obind (dict_get scores "relevance_to_rq3" (JNum 0)) (fun rq3 =>
  obind (dict_get scores "implementation_quality" (JNum 0)) (fun quality =>
  obind (dict_get scores "overall_score" (JNum 0)) (fun overall =>
  obind (dict_get scores "recommendation" (JStr "Unknown")) (fun rec =>
  obind (dict_get scores "healthcare_domain" (JStr "")) (fun domain =>
  obind (dict_get scores "ai_techniques" (JArr [])) (fun techniques =>
  obind (py_join ", " techniques) (fun joined =>
  obind (dict_get scores "paper_summary" (JStr "")) (fun summary =>
  Ok {| row_filename := filename p;
        row_filepath := filepath p;
        row_meets_inclusion := meets;
        row_rq1 := rq1;
        row_rq2 := rq2;
        row_rq3 := rq3;
        row_implementation_quality := quality;
        row_overall_score := overall;
        row_recommendation := rec;
        row_healthcare_domain := domain;
        row_ai_techniques := joined;
        row_summary := summary |}))))))))))).

(** [report_data] of [generate_report], before it becomes a data frame. *)
Definition report_data (papers : list paper) : outcome (list report_row) :=
  map_outcome paper_data papers.

(** ** [visualize_results]: the bars of the ranking chart *)

(** [name[:25] + '...' if len(name) > 25 else name] *)
Definition short_name (name : string) : string :=
  if (25 <? String.length name)%nat then substring 0 25 name ++ "..."
  else name.

(** The labels and the values given to [plt.barh], or [None] when the
    method returns early because no paper is included. *)
Definition visualize_results_bars (papers : list paper) (top_n : Z)
  : outcome (option (list string * list json)) :=
  obind (filter_outcome (fun p =>
           obind (dict_get (scores p) "meets_inclusion_criteria" (JBool false))
                 (fun v => Ok (truthy v))) papers) (fun included_papers =>
  match included_papers with
  | [] => Ok None
  | _ =>
    obind (rank_papers papers) (fun ranked =>
    let ranked_papers := slice_to top_n ranked in
    let filenames := map (fun p => os_path_basename (filepath p)) ranked_papers in
    obind (map_outcome (fun p => dict_get (scores p) "overall_score" (JNum 0))
                       ranked_papers) (fun scores =>
    let short_names := map short_name filenames in
    Ok (Some (short_names, scores))))
  end).

(** ** [generate_detailed_review]: sections and summary counts *)

(** [counts[k] = counts.get(k, 0) + 1] *)
Definition count_key (counts : list (json * Z)) (k : json)
  : outcome (list (json * Z)) :=
  if hashable k then Ok (counts_set counts k (counts_get counts k 0 + 1))
  else Raise ("unhashable type: '" ++ type_name k ++ "'").

Fixpoint count_keys (counts : list (json * Z)) (ks : list json)
  : outcome (list (json * Z)) :=
  match ks with
  | [] => Ok counts
  | k :: rest => obind (count_key counts k) (fun c => count_keys c rest)
  end.

(** The loop that fills [techniques]. *)
Fixpoint count_techniques (techniques : list (json * Z))
  (ranked_papers : list paper) : outcome (list (json * Z)) :=
  match ranked_papers with
  | [] => Ok techniques
  | p :: rest =>
    obind (dict_get (scores p) "ai_techniques" (JArr [])) (fun v =>
    obind (py_iter v) (fun items =>
    obind (count_keys techniques items) (fun t =>
    count_techniques t rest)))
  end.

(** The loop that fills [all_challenges] with [extend]. *)
Fixpoint all_challenges (acc : list json) (ranked_papers : list paper)
  : outcome (list json) :=
  match ranked_papers with
  | [] => Ok acc
  | p :: rest =>
    obind (dict_get (scores p) "challenges_identified" (JArr [])) (fun v =>
    obind (py_iter v) (fun items => all_challenges (acc ++ items) rest))
  end.

(** [sorted(counts.items(), key=lambda x: x[1], reverse=True)] *)
Definition by_count (counts : list (json * Z)) : outcome (list (json * Z)) :=
  sorted counts (fun x => Ok (JNum (snd x))) true.

(** What one of the sections of the ten top papers reads from the judgment.
    Formatting a value into the text never raises; joining the techniques
    and iterating the challenges and the success factors can. *)
Definition review_section (p : paper) : outcome unit :=
  let scores := scores p in
  obind (dict_get scores "overall_score" (JNum 0)) (fun _ =>
  obind (dict_get scores "ai_techniques" (JArr [JStr "Not specified"]))
    (fun techniques =>
  obind (py_join ", " techniques) (fun _ =>
  obind (dict_get scores "challenges_identified" JNull) (fun challenges =>
  obind (if truthy challenges then py_iter challenges else Ok []) (fun _ =>
  obind (dict_get scores "success_factors" JNull) (fun factors =>
  obind (if truthy factors then py_iter factors else Ok []) (fun _ =>
  Ok tt))))))).

(** The value of [domains] when [generate_detailed_review] has filled it:
    the ranking, the early return when nothing is included ([None] here),
    the sections of the ten top papers, which can raise before the summary
    is reached, and the counting loop.  The output file is taken to be
    writable. *)
Definition generate_detailed_review_domains (papers : list paper)
  : outcome (option (list (json * Z))) :=
  obind (rank_papers papers) (fun ranked_papers =>
    match ranked_papers with
    | [] => Ok None
    | _ =>
      obind (map_outcome review_section (slice_to 10 ranked_papers)) (fun _ =>
      obind (count_domains [] ranked_papers) (fun d => Ok (Some d)))
    end).

Record review_summary := ReviewSummary {
  domain_lines : list (json * Z);
  technique_lines : list (json * Z);
  challenge_lines : list (json * Z)
}.

(** [generate_detailed_review] as far as the judgments decide it: [None]
    when it returns early, otherwise the three listings of the summary, in
    the order in which they are written. *)
Definition generate_detailed_review_summary (papers : list paper)
  : outcome (option review_summary) :=
  obind (rank_papers papers) (fun ranked_papers =>
  match ranked_papers with
  | [] => Ok None
  | _ =>
    obind (map_outcome review_section (slice_to 10 ranked_papers)) (fun _ =>
    obind (count_domains [] ranked_papers) (fun domains =>
    obind (by_count domains) (fun domain_listing =>
    obind (count_techniques [] ranked_papers) (fun techniques =>
    obind (by_count techniques) (fun technique_listing =>
    obind (all_challenges [] ranked_papers) (fun challenges =>
    obind (count_keys [] challenges) (fun challenge_counts =>
    obind (by_count challenge_counts) (fun challenge_listing =>
    Ok (Some {| domain_lines := domain_listing;
                technique_lines := technique_listing;
                challenge_lines := slice_to 10 challenge_listing |})))))))))
  end).

(** ** [main]

    [exists_dir] is [os.path.exists("papers")], [api_key] is
    [os.environ.get('OPENAI_API_KEY')], [fs] is the tree under the papers
    directory.  The analyzer that [main] constructs starts with no papers.
    [reports] stands for everything [main] does once the analysis has
    returned true: the three report methods, the listing of the five top
    papers and the closing messages. *)

Section Main.

Variable service : Type.
Variable create : service -> string -> string -> outcome string * service.
Variable json_loads : string -> outcome json.

#[local] Notation "x <- m ;; k" := (bind service m (fun x => k))
  (at level 20, m at level 99, k at level 200).
#[local] Notation "m ;; k" := (bind service m (fun _ => k))
  (at level 100, k at level 200, right associativity).

Definition main (exists_dir : bool) (api_key : option string) (fs : folder)
  (reports : M service unit) : M service unit :=
  put_papers service [] ;;
  let papers_dir := "papers" in
  if negb exists_dir then
    print service ("Error: Papers directory not found at " ++ papers_dir) ;;
    print service
      "Please create a folder named 'papers' and place your research papers inside it."
  else if match api_key with
          | Some key => String.eqb key ""
          | None => true
          end then
    print service "Error: OpenAI API key not found." ;;
    print service "Please set your API key as an environment variable:" ;;
    print service "export OPENAI_API_KEY=your_api_key"
  else
    loaded <- load_papers fs papers_dir ;;
    if negb loaded then
      print service
        "No PDF papers found in the 'papers' folder. Please add some PDF files."
    else
      analyzed <- analyze_papers create json_loads ;;
      if negb analyzed then ret service tt
      else reports.

End Main.

Arguments main {service} create json_loads exists_dir api_key fs reports s.

(** ** Vocabulary of the further statements *)

(** The value ranking tests for inclusion, and its sort key. *)
Definition inclusion_value (p : paper) : json :=
  match field "meets_inclusion_criteria" p with
  | Some v => v
  | None => JBool false
  end.

Definition score_value (p : paper) : json :=
  match field "overall_score" p with
  | Some v => v
  | None => JNum 0
  end.

(** The integer a score stands for when it is a number or a boolean. *)
Definition int_score (p : paper) : Z :=
  match as_int (score_value p) with
  | Some n => n
  | None => 0
  end.

(** The judgment is a dict whose score, when present, is a number or a
    boolean: the records [rank_papers] can order. *)
Definition rankable (p : paper) : bool :=
  match scores p with
  | JObj _ => match as_int (score_value p) with Some _ => true | None => false end
  | _ => false
  end.

Definition is_dict (v : json) : bool :=
  match v with JObj _ => true | _ => false end.

(** A name as [os.listdir] gives it: no slash in it. *)
Fixpoint slash_free (s : string) : bool :=
  match s with
  | EmptyString => true
  | String c rest => negb (Ascii.eqb c "/") && slash_free rest
  end.

(** Every name of the tree is free of slashes. *)
Fixpoint listed_names (d : folder) : bool :=
  match d with
  | Unlistable _ => true
  | Listing items =>
    forallb (fun '(item, e) =>
               slash_free item
               && match e with
                  | Dir sub => listed_names sub
                  | File _ => true
                  end) items
  end.

(** The answer of the Judge has the two fields of a JudgmentRecord that
    ranking reads, with their types. *)
Definition conforming (r : outcome json) : bool :=
  match r with
  | Ok (JObj kvs) =>
    match assoc "meets_inclusion_criteria" kvs with
    | None | Some (JBool _) => true
    | _ => false
    end
    &&
    match assoc "overall_score" kvs with
    | None | Some (JNum _) => true
    | _ => false
    end
  | Ok _ => false
  | Raise _ => true
  end.

(** The values a judgment lists under [key]: none when the key is missing. *)
Definition listed (key : string) (p : paper) : list json :=
  match field key p with
  | Some (JArr xs) => xs
  | _ => []
  end.

(** Under [key] the judgment has nothing, or a list of values that can be
    dict keys. *)
Definition lists_keys (key : string) (p : paper) : bool :=
  match scores p with
  | JObj kvs =>
    match assoc key kvs with
    | None => true
    | Some (JArr xs) => forallb hashable xs
    | _ => false
    end
  | _ => false
  end.

(** The request [analyze_papers] makes for a paper. *)
Definition request_of (p : paper) : event :=
  ECreate slr_prompt (user_content (content p)).

Definition is_failure {A} (r : outcome A) : bool := negb (is_ok r).

(** The number of values of a list equal to [k]. *)
Definition occurrences (k : json) (ks : list json) : Z :=
  Z.of_nat (length (List.filter (fun x => py_eq x k) ks)).

(** A list of strings. *)
Definition string_list (v : json) : bool :=
  match v with
  | JArr xs => forallb (fun x => match x with JStr _ => true | _ => false end) xs
  | _ => false
  end.

(** The judgment has what the detailed review reads, in the shape the
    rubric asks for: a domain that can be a dict key, techniques that are a
    list of strings, challenges that are a list of values that can be dict
    keys, success factors that are a list; each of them may be missing. *)
Definition review_ready (p : paper) : bool :=
  match scores p with
  | JObj kvs =>
    hashable (healthcare_domain p)
    && match assoc "ai_techniques" kvs with
       | None => true
       | Some v => string_list v
       end
    && match assoc "challenges_identified" kvs with
       | None => true
       | Some (JArr xs) => forallb hashable xs
       | Some _ => false
       end
    && match assoc "success_factors" kvs with
       | None | Some (JArr _) => true
       | Some _ => false
       end
  | _ => false
  end.

(** What [', '.join] accepts: a list of strings, a string, or a dict. *)
Definition joinable (v : json) : bool :=
  match v with
  | JArr _ => string_list v
  | JStr _ | JObj _ => true
  | _ => false
  end.

(** The judgment is a dict whose techniques, when present, can be
    joined. *)
Definition reportable (p : paper) : bool :=
  match scores p with
  | JObj kvs =>
    match assoc "ai_techniques" kvs with
    | None => true
    | Some v => joinable v
    end
  | _ => false
  end.

(** The value of a field, or the default [generate_report] gives it. *)
Definition field_or (key : string) (default : json) (p : paper) : json :=
  match field key p with
  | Some v => v
  | None => default
  end.

(** The row of a record whose Judge call failed. *)
Definition failure_row (p : paper) : report_row :=
  {| row_filename := filename p;
     row_filepath := filepath p;
     row_meets_inclusion := JBool false;
     row_rq1 := JNum 0;
     row_rq2 := JNum 0;
     row_rq3 := JNum 0;
     row_implementation_quality := JNum 0;
     row_overall_score := JNum 0;
     row_recommendation := JStr "Error";
     row_healthcare_domain := JStr "";
     row_ai_techniques := "";
     row_summary := JStr "" |}.

(** ** Concrete inputs of the further statements *)

(** A scanned document: two pages without any text. *)
Definition scanned_tree : folder :=
  Listing [("scan.pdf", File (Ok [Ok ""; Ok ""]))].

(** A judgment with a string where a boolean is expected, and a boolean
    where a score is expected. *)
Definition paper_said_false : paper :=
  Paper "e.pdf" "papers/e.pdf" "text of e"
    (JObj [("meets_inclusion_criteria", JStr "false");
           ("overall_score", JBool true)]).

(** A Judge that answers every request with the empty JSON list. *)
Definition list_create (served : nat) (system user : string)
  : outcome string * nat := (Ok "[]", S served).

Definition loads_list (response : string) : outcome json :=
  if String.eqb response "[]" then Ok (JArr [])
  else Raise "Expecting value: line 1 column 1 (char 0)".

(** A judgment with the lists the detailed review reads. *)
Definition paper_F : paper :=
  Paper "f.pdf" "papers/f.pdf" "text of f"
    (JObj [("meets_inclusion_criteria", JBool true); ("overall_score", JNum 80);
           ("healthcare_domain", JStr "Radiology");
           ("ai_techniques", JArr [JStr "CNN"; JStr "CNN"; JStr "SVM"]);
           ("challenges_identified", JArr [JStr "Data quality"])]).

(** A judgment whose techniques are a string. *)
Definition paper_G : paper :=
  Paper "g.pdf" "papers/g.pdf" "text of g"
    (JObj [("meets_inclusion_criteria", JBool true);
           ("ai_techniques", JStr "ML")]).

(** A report stage that only announces itself. *)
Definition announce_reports : M nat unit :=
  print nat "Analysis complete! Check the generated reports and visualizations:".

(** A papers directory without any PDF file. *)
Definition no_pdf_tree : folder :=
  Listing [("notes.txt", File (Raise "EOF marker not found"))].

(** The two loaded records with judgments left by an earlier run. *)
Definition two_judged_before : state nat :=
  State [Paper "a.pdf" "papers/a.pdf" "Abstract"
           (JObj [("meets_inclusion_criteria", JBool true)]);
         Paper "B.PDF" "papers/cardiology/B.PDF" "Methods" (error_scores "timeout")]
        [] 0%nat.

(** A Judge that is down: every request raises. *)
Definition down_create (served : nat) (system user : string)
  : outcome string * nat := (Raise "Connection error.", S served).

Definition fresh : state nat := State [] [] 0%nat.

(** A judgment that names eleven challenges, the last of them twice. *)
Definition paper_H : paper :=
  Paper "h.pdf" "papers/h.pdf" "text of h"
    (JObj [("meets_inclusion_criteria", JBool true); ("overall_score", JNum 60);
           ("challenges_identified",
            JArr [JStr "c01"; JStr "c02"; JStr "c03"; JStr "c04"; JStr "c05";
                  JStr "c06"; JStr "c07"; JStr "c08"; JStr "c09"; JStr "c10";
                  JStr "c11"; JStr "c11"])]).
(** * Theorems *)

(** ** Ranking *)

Lemma insert_by_perm {A} (k : A -> Z) x l : Permutation (insert_by k x l) (x :: l).
Proof.
  induction l as [|y l IH]; simpl; [reflexivity|].
  destruct (k y <? k x); [|reflexivity].
  rewrite IH. apply perm_swap.
Qed.

Lemma sort_by_perm {A} (k : A -> Z) l : Permutation (sort_by k l) l.
Proof.
  induction l as [|x l IH]; simpl; [reflexivity|].
  rewrite insert_by_perm. now constructor.
Qed.

Lemma insert_by_sorted {A} (k : A -> Z) x l :
  StronglySorted (fun a b => k a <= k b) l ->
  StronglySorted (fun a b => k a <= k b) (insert_by k x l).
Proof.
  induction 1 as [|y l Hl IH Hy]; simpl.
  - repeat constructor.
  - destruct (Z.ltb_spec (k y) (k x)) as [Hlt|Hge].
    + constructor; [exact IH|].
      rewrite List.Forall_forall. intros z Hz.
      apply (Permutation_in _ (insert_by_perm k x l)) in Hz.
      destruct Hz as [<-|Hz]; [lia|].
      rewrite List.Forall_forall in Hy. now apply Hy.
    + constructor; [now constructor|].
      constructor; [exact Hge|].
      rewrite List.Forall_forall in Hy |- *.
      intros z Hz. specialize (Hy z Hz). lia.
Qed.

Lemma sort_by_sorted {A} (k : A -> Z) l :
  StronglySorted (fun a b => k a <= k b) (sort_by k l).
Proof.
  induction l; simpl; [constructor|]. now apply insert_by_sorted.
Qed.

(** Stability: the elements of one key keep their order. *)
Lemma insert_by_stable {A} (k : A -> Z) n x l :
  List.filter (fun a => k a =? n) (insert_by k x l)
  = List.filter (fun a => k a =? n) (x :: l).
Proof.
  induction l as [|y l IH]; [reflexivity|].
  simpl insert_by. destruct (Z.ltb_spec (k y) (k x)) as [Hlt|Hge]; [|reflexivity].
  simpl in *. rewrite IH.
  destruct (Z.eqb_spec (k x) n), (Z.eqb_spec (k y) n); try reflexivity; lia.
Qed.

Lemma sort_by_stable {A} (k : A -> Z) n l :
  List.filter (fun a => k a =? n) (sort_by k l)
  = List.filter (fun a => k a =? n) l.
Proof.
  induction l as [|x l IH]; [reflexivity|].
  simpl sort_by. rewrite insert_by_stable. simpl. now rewrite IH.
Qed.

Lemma StronglySorted_rev {A} (R : A -> A -> Prop) l :
  StronglySorted R l -> StronglySorted (fun a b => R b a) (rev l).
Proof.
  induction 1 as [|x l Hl IH Hx]; simpl; [constructor|].
  apply StronglySorted_app_2; [|exact IH|repeat constructor].
  intros a b Ha Hb. apply list_elem_of_In in Ha, Hb.
  destruct Hb as [<-|[]]. apply in_rev in Ha.
  rewrite List.Forall_forall in Hx. now apply Hx.
Qed.

(** The monadic sort on integer keys is the pure one. *)
Lemma insert_key_int {A} (k : A -> Z) x l :
  insert_key (JNum (k x), x) (map (fun a => (JNum (k a), a)) l)
  = Ok (map (fun a => (JNum (k a), a)) (insert_by k x l)).
Proof.
  induction l as [|y l IH]; [reflexivity|].
  simpl. destruct (k y <? k x); [|reflexivity].
  rewrite IH. reflexivity.
Qed.

Lemma sort_keys_int {A} (k : A -> Z) l :
  sort_keys (map (fun a => (JNum (k a), a)) l)
  = Ok (map (fun a => (JNum (k a), a)) (sort_by k l)).
Proof.
  induction l as [|x l IH]; [reflexivity|].
  simpl. rewrite IH. simpl. apply insert_key_int.
Qed.

Lemma judged_included p :
  judged p = true ->
  obind (dict_get (scores p) "meets_inclusion_criteria" (JBool false))
        (fun v => Ok (truthy v)) = Ok (meets_inclusion_criteria p).
Proof.
  unfold judged, meets_inclusion_criteria, field, dict_get.
  destruct (scores p) as [| | | | |kvs]; try discriminate.
  destruct (assoc "meets_inclusion_criteria" kvs) as [[|[]| | | |]|];
    simpl; try discriminate; reflexivity.
Qed.

Lemma judged_key p :
  judged p = true ->
  dict_get (scores p) "overall_score" (JNum 0) = Ok (JNum (overall_score p)).
Proof.
  unfold judged, overall_score, field, dict_get.
  destruct (scores p) as [| | | | |kvs]; try discriminate.
  intros H. apply andb_true_iff in H as [_ H].
  destruct (assoc "overall_score" kvs) as [[| | | | |]|];
    try discriminate; reflexivity.
Qed.

Lemma filter_outcome_judged ps :
  forallb judged ps = true ->
  filter_outcome (fun p =>
      obind (dict_get (scores p) "meets_inclusion_criteria" (JBool false))
            (fun v => Ok (truthy v))) ps
  = Ok (List.filter meets_inclusion_criteria ps).
Proof.
  induction ps as [|p ps IH]; [reflexivity|].
  simpl. intros H. apply andb_true_iff in H as [Hp Hps].
  rewrite (judged_included p Hp). simpl. rewrite (IH Hps). reflexivity.
Qed.

Lemma map_outcome_keys ps :
  forallb judged ps = true ->
  map_outcome (fun x => obind (dict_get (scores x) "overall_score" (JNum 0))
                       (fun k => Ok (k, x))) ps
  = Ok (map (fun a => (JNum (overall_score a), a)) ps).
Proof.
  induction ps as [|p ps IH]; [reflexivity|].
  simpl. intros H. apply andb_true_iff in H as [Hp Hps].
  rewrite (judged_key p Hp). simpl. rewrite (IH Hps). reflexivity.
Qed.

Lemma forallb_filter {A} (f g : A -> bool) l :
  forallb f l = true -> forallb f (List.filter g l) = true.
Proof.
  induction l as [|x l IH]; [reflexivity|].
  simpl. intros H. apply andb_true_iff in H as [Hx Hl].
  destruct (g x); simpl; [rewrite Hx|]; auto.
Qed.

(** On judged records [rank_papers] never raises and is the descending
    stable sort of the included records. *)
Lemma rank_papers_judged ps :
  forallb judged ps = true ->
  rank_papers ps
  = Ok (rev (sort_by overall_score
               (rev (List.filter meets_inclusion_criteria ps)))).
Proof.
  intros H. unfold rank_papers. rewrite (filter_outcome_judged ps H). simpl.
  unfold sorted.
  rewrite (map_outcome_keys _ (forallb_filter judged meets_inclusion_criteria ps H)).
  simpl. rewrite <- map_rev, sort_keys_int. simpl.
  rewrite <- map_rev, map_map. simpl. now rewrite map_id.
Qed.

(** Shared by the ranking and the counting statements. *)
Lemma rank_papers_permutation ps :
  forallb judged ps = true ->
  exists ranked,
    rank_papers ps = Ok ranked
    /\ Permutation ranked (List.filter meets_inclusion_criteria ps).
Proof.
  intros H. eexists. split; [apply (rank_papers_judged ps H)|].
  rewrite <- Permutation_rev, sort_by_perm, <- Permutation_rev. reflexivity.
Qed.

(** C1. For every list of paper records carrying judgments, [rank_papers]
    returns (without raising) exactly the records whose judgment has
    [meets_inclusion_criteria] equal to true (as a multiset: a permutation
    of the filtered input), sorted by [overall_score] in descending order,
    and stable: for every score, the records with that score appear in
    their input order.  In particular three included records A, B, C in
    load order with scores 40, 90, 90 are ranked [B; C; A]. *)
Theorem rank_papers_included_sorted_stable (ps : list paper) :
  forallb judged ps = true ->
  exists ranked,
    rank_papers ps = Ok ranked
    /\ Permutation ranked (List.filter meets_inclusion_criteria ps)
    /\ StronglySorted (fun a b => overall_score b <= overall_score a) ranked
    /\ (forall n,
          List.filter (fun p => overall_score p =? n) ranked
          = List.filter (fun p => overall_score p =? n)
              (List.filter meets_inclusion_criteria ps))
    /\ (forall A B C,
          ps = [A; B; C] ->
          meets_inclusion_criteria A = true ->
          meets_inclusion_criteria B = true ->
          meets_inclusion_criteria C = true ->
          overall_score A = 40 -> overall_score B = 90 ->
          overall_score C = 90 ->
          ranked = [B; C; A]).
Proof.
  intros H. eexists. split; [apply (rank_papers_judged ps H)|].
  split; [|split; [|split]].
  - rewrite <- Permutation_rev, sort_by_perm, <- Permutation_rev. reflexivity.
  - apply (StronglySorted_rev (fun a b => overall_score a <= overall_score b)).
    apply sort_by_sorted.
  - intros n. rewrite filter_rev, sort_by_stable, filter_rev.
    apply rev_involutive.
  - intros A B C -> HA HB HC SA SB SC.
    cbn [List.filter]. rewrite HA, HB, HC.
    cbn [rev app sort_by insert_by]. rewrite SA, SB.
    change (40 <? 90) with true. cbn [insert_by]. rewrite SA, SB, SC.
    reflexivity.
Qed.

Lemma rank_papers_included_sorted_stable_witness :
  forallb judged [paper_A; paper_B; paper_C] = true
  /\ rank_papers [paper_A; paper_B; paper_C] = Ok [paper_B; paper_C; paper_A].
Proof.
  split; [reflexivity|].
  destruct (rank_papers_included_sorted_stable [paper_A; paper_B; paper_C]
              eq_refl) as (ranked & Hr & _ & _ & _ & Hs).
  rewrite Hr. f_equal.
  apply (Hs paper_A paper_B paper_C); reflexivity.
Defined.

(** ** Extraction *)

Lemma pages_to_read_le n max_pages : pages_to_read n max_pages <= Z.of_nat n.
Proof.
  unfold pages_to_read. destruct max_pages as [m|]; [|lia].
  destruct (m =? 0); simpl; lia.
Qed.

(** When a cap is given and is not zero, it is applied. *)
Lemma pages_to_read_capped n m :
  m <> 0 -> pages_to_read n (Some m) = Z.min (Z.of_nat n) m.
Proof.
  intros H. unfold pages_to_read.
  destruct (Z.eqb_spec m 0); [contradiction|reflexivity].
Qed.

Lemma read_pages_seq pages : forall n k text,
  (k + n <= length pages)%nat ->
  read_pages pages (seq k n) text = page_text (take n (drop k pages)) text.
Proof.
  induction n as [|n IH]; intros k text Hk; [reflexivity|].
  simpl seq. simpl read_pages.
  destruct (pages !! k) as [r|] eqn:Hr.
  - rewrite (drop_S _ _ _ Hr). simpl.
    destruct r as [t|e]; [|reflexivity].
    rewrite IH by lia. reflexivity.
  - apply lookup_ge_None in Hr. lia.
Qed.

Lemma append_nil_r (s : string) : s ++ "" = s.
Proof.
  induction s as [|c s IH]; [reflexivity|].
  change (String c (s ++ "") = String c s). now rewrite IH.
Qed.

Lemma append_assoc (s t u : string) : (s ++ t) ++ u = s ++ t ++ u.
Proof.
  induction s as [|c s IH]; [reflexivity|].
  change (String c ((s ++ t) ++ u) = String c (s ++ t ++ u)). now rewrite IH.
Qed.

Lemma page_text_texts pages : forall text texts,
  page_texts pages = Some texts ->
  page_text pages text = Ok (text ++ concat_pages texts).
Proof.
  induction pages as [|[t|e] pages IH]; intros text texts H; simpl in *.
  - injection H as <-. simpl. now rewrite append_nil_r.
  - destruct (page_texts pages) as [ts|]; [|discriminate].
    injection H as <-. rewrite (IH _ ts eq_refl). simpl.
    now rewrite !append_assoc.
  - discriminate.
Qed.

Lemma page_text_raises pages : forall text,
  page_texts pages = None -> exists e, page_text pages text = Raise e.
Proof.
  induction pages as [|[t|e] pages IH]; intros text H; simpl in *.
  - discriminate.
  - destruct (page_texts pages) as [ts|]; [discriminate|]. now apply IH.
  - now exists e.
Qed.

Lemma page_texts_raise pages i e :
  pages !! i = Some (Raise e) -> page_texts pages = None.
Proof.
  revert i. induction pages as [|[t|e'] pages IH]; intros i H.
  - discriminate.
  - destruct i as [|i]; [discriminate|]. simpl in *.
    now rewrite (IH i H).
  - reflexivity.
Qed.

Section Extraction.

Variable service : Type.
Implicit Type s : state service.

(** [extract_text_from_pdf] never raises: it returns the text of the [try]
    body, or reports the failure and returns the empty string. *)
Lemma extract_text_from_pdf_run PdfReader pdf_path max_pages s :
  extract_text_from_pdf PdfReader pdf_path max_pages s
  = match extraction (PdfReader pdf_path) max_pages with
    | Ok text => (Ok text, s)
    | Raise e =>
      (Ok "",
       State (papers s)
             (trace s ++ [EPrint ("Error extracting text from " ++ pdf_path
                                   ++ ": " ++ e)])
             (client s))
    end.
Proof.
  unfold extract_text_from_pdf, try_except, bind, lift, extraction, range.
  destruct (PdfReader pdf_path) as [reader|e]; simpl; [|reflexivity].
  rewrite read_pages_seq.
  - rewrite drop_0.
    destruct (page_text _ _); reflexivity.
  - pose proof (pages_to_read_le (length reader) max_pages). lia.
Qed.

Lemma extraction_fails_raises doc max_pages :
  extraction_fails doc max_pages -> exists e, extraction doc max_pages = Raise e.
Proof.
  unfold extraction_fails, extraction.
  destruct doc as [pages|e]; simpl; [|now exists e].
  intros (i & e & Hi & Hp).
  apply page_text_raises, (page_texts_raise _ i e).
  rewrite lookup_take_lt by lia. exact Hp.
Qed.

(** C5. For every path on which reading or parsing the PDF fails (the
    reader raises, or the text extraction of one of the pages read raises),
    [extract_text_from_pdf] returns the empty string and does not raise: it
    prints the failure and changes nothing else. *)
Theorem extract_text_from_pdf_failure PdfReader pdf_path max_pages s :
  extraction_fails (PdfReader pdf_path) max_pages ->
  exists e,
    extract_text_from_pdf PdfReader pdf_path max_pages s
    = (Ok "",
       State (papers s)
             (trace s ++ [EPrint ("Error extracting text from " ++ pdf_path
                                   ++ ": " ++ e)])
             (client s)).
Proof.
  intros H. destruct (extraction_fails_raises _ _ H) as [e He].
  exists e. rewrite extract_text_from_pdf_run, He. reflexivity.
Qed.

End Extraction.

(** ** Corpus loading *)

(** Induction on a directory tree: a listable directory inherits the
    property from its subdirectories. *)
Lemma folder_tree_ind (P : folder -> Prop)
  (HU : forall e, P (Unlistable e))
  (HL : forall items,
      Forall (fun ie => match snd ie with Dir sub => P sub | File _ => True end)
             items ->
      P (Listing items)) :
  forall d, P d.
Proof.
  fix IH 1. intros [items|e]; [|apply HU].
  apply HL. induction items as [|[item [doc|sub]] rest IHr]; constructor.
  - exact I.
  - exact IHr.
  - apply IH.
  - exact IHr.
Qed.

Lemma flat_map_flat_map {A B C} (f : A -> list B) (g : B -> list C) l :
  flat_map g (flat_map f l) = flat_map (fun x => flat_map g (f x)) l.
Proof.
  induction l as [|x l IH]; [reflexivity|].
  simpl. now rewrite flat_map_app, IH.
Qed.

Section Loading.

Variable service : Type.
Implicit Type s : state service.

Lemma state_same s : State (papers s ++ []) (trace s ++ []) (client s) = s.
Proof. destruct s. simpl. now rewrite !app_nil_r. Qed.

Lemma for_each_run {A} (body : A -> M service unit)
  (P : A -> list paper) (E : A -> list event) items :
  Forall (fun x => forall s,
            body x s = (Ok tt, State (papers s ++ P x) (trace s ++ E x)
                                     (client s))) items ->
  forall s,
    for_each body items s
    = (Ok tt, State (papers s ++ flat_map P items)
                    (trace s ++ flat_map E items) (client s)).
Proof.
  induction 1 as [|x items Hx _ IH]; intros s; simpl.
  - unfold ret. now rewrite state_same.
  - unfold bind. rewrite Hx, IH. simpl. now rewrite !app_assoc.
Qed.

(** [process_directory] never raises; it appends the records of the files
    it comes across and prints what it does, in the order of the walk. *)
Lemma process_directory_run d : forall directory s,
  process_directory directory d s
  = (Ok tt, State (papers s ++ flat_map visit_papers (walk directory d))
                  (trace s ++ flat_map visit_events (walk directory d))
                  (client s)).
Proof.
  induction d as [e|items IH] using folder_tree_ind; intros directory s.
  - simpl. now rewrite app_nil_r.
  - cbn [process_directory walk]. unfold try_except.
    rewrite !flat_map_flat_map.
    rewrite (for_each_run _
               (fun ie => flat_map visit_papers
                  (let '(item, e) := ie in
                   match e with
                   | Dir sub => walk (os_path_join directory item) sub
                   | File doc =>
                     if endswith (lower item) ".pdf"
                     then [Found item (os_path_join directory item) doc]
                     else []
                   end))
               (fun ie => flat_map visit_events
                  (let '(item, e) := ie in
                   match e with
                   | Dir sub => walk (os_path_join directory item) sub
                   | File doc =>
                     if endswith (lower item) ".pdf"
                     then [Found item (os_path_join directory item) doc]
                     else []
                   end))); [reflexivity|].
    clear s. eapply Forall_impl; [exact IH|].
    intros [item [doc|sub]] H s; simpl in H |- *.
    + destruct (endswith (lower item) ".pdf"); simpl.
      * unfold bind, print, emit. simpl.
        rewrite extract_text_from_pdf_run. simpl.
        destruct (extraction doc (Some 10)) as [t|e]; simpl.
        -- destruct (String.eqb t ""); simpl.
           ++ unfold ret. now rewrite app_nil_r.
           ++ reflexivity.
        -- unfold ret. simpl. now rewrite app_nil_r, <- app_assoc.
      * unfold ret. now rewrite state_same.
    + apply H.
Qed.

Lemma load_papers_run fs paper_dir s :
  let loaded := flat_map visit_papers (walk paper_dir fs) in
  load_papers fs paper_dir s
  = (Ok (0 <? length loaded)%nat,
     State loaded
           (trace s
            ++ [EPrint ("Scanning for papers in " ++ paper_dir
                        ++ " and all subdirectories...")]
            ++ flat_map visit_events (walk paper_dir fs)
            ++ [EPrint ("Loaded " ++ str_nat (length loaded)
                        ++ " research papers from " ++ paper_dir
                        ++ " and subdirectories")])
           (client s)).
Proof.
  unfold load_papers, bind, put_papers, print, emit, get_papers, ret.
  cbn [papers trace client].
  rewrite process_directory_run. cbn [papers trace client app].
  now rewrite <- !app_assoc.
Qed.

End Loading.

Lemma take_min_length {A} (l : list A) k :
  take (Nat.min (length l) k) l = take k l.
Proof.
  destruct (Nat.le_ge_cases (length l) k) as [H|H].
  - rewrite Nat.min_l by exact H. now rewrite !take_ge by lia.
  - now rewrite Nat.min_r by exact H.
Qed.

Lemma extraction_capped doc :
  extraction doc (Some 10)
  = match doc with
    | Ok pages => page_text (take 10 pages) ""
    | Raise e => Raise e
    end.
Proof.
  unfold extraction. destruct doc as [pages|e]; [|reflexivity]. cbn [obind].
  rewrite pages_to_read_capped by discriminate.
  replace (Z.to_nat (Z.min (Z.of_nat (length pages)) 10))
    with (Nat.min (length pages) 10) by lia.
  now rewrite take_min_length.
Qed.

(** The record [load_papers] makes of a PDF file is [record_of] it. *)
Lemma visit_papers_found item item_path doc :
  visit_papers (Found item item_path doc)
  = match record_of (item, item_path, doc) with
    | Some p => [p]
    | None => []
    end.
Proof.
  unfold visit_papers, record_of, capped_text. rewrite extraction_capped.
  destruct doc as [pages|e]; [|reflexivity].
  destruct (page_texts (take 10 pages)) as [texts|] eqn:Ht; simpl.
  - rewrite (page_text_texts _ "" texts Ht).
    change ("" ++ concat_pages texts) with (concat_pages texts).
    now destruct (String.eqb (concat_pages texts) "").
  - destruct (page_text_raises _ "" Ht) as [e ->]. reflexivity.
Qed.

Lemma visit_papers_records (vs : list visit) :
  flat_map visit_papers vs = omap record_of (omap found_file vs).
Proof.
  induction vs as [|[item item_path doc|directory e] vs IH].
  - reflexivity.
  - cbn [flat_map omap found_file list_omap]. rewrite visit_papers_found, IH.
    change (omap record_of ((item, item_path, doc) :: omap found_file vs))
      with (match record_of (item, item_path, doc) with
            | Some p => p :: omap record_of (omap found_file vs)
            | None => omap record_of (omap found_file vs)
            end).
    now destruct (record_of (item, item_path, doc)).
  - exact IH.
Qed.

Lemma walk_found_pdf d : forall directory item item_path doc,
  In (Found item item_path doc) (walk directory d) ->
  endswith (lower item) ".pdf" = true.
Proof.
  induction d as [e|items IH] using folder_tree_ind;
    intros directory item item_path doc H.
  - destruct H as [H|[]]. discriminate.
  - cbn [walk] in H. apply in_flat_map in H as ([item' e'] & Hin & H).
    rewrite List.Forall_forall in IH. specialize (IH _ Hin).
    destruct e' as [doc'|sub]; simpl in IH.
    + destruct (endswith (lower item') ".pdf") eqn:E; [|destruct H].
      destruct H as [H|[]]. now injection H as -> _ _.
    + eapply IH, H.
Qed.

Lemma record_of_fields f p :
  record_of f = Some p ->
  filename p = fst (fst f) /\ filepath p = snd (fst f)
  /\ content p <> "" /\ capped_text (snd f) = Some (content p)
  /\ scores p = JObj [].
Proof.
  destruct f as [[item item_path] doc]. unfold record_of.
  destruct (capped_text doc) as [t|] eqn:Ht; [|discriminate].
  destruct (String.eqb_spec t ""); [discriminate|].
  intros [= <-]. simpl. repeat split; auto.
Qed.

Lemma omap_record_of_all files :
  Forall (fun f => exists t, capped_text (snd f) = Some t /\ t <> "") files ->
  Forall2 (fun f p => record_of f = Some p) files (omap record_of files).
Proof.
  induction 1 as [|[[item item_path] doc] files (t & Ht & Hne) _ IH].
  - constructor.
  - cbn [omap list_omap]. simpl in Ht.
    assert (Hr : record_of (item, item_path, doc)
                 = Some (Paper item item_path t (JObj []))).
    { unfold record_of. rewrite Ht.
      destruct (String.eqb_spec t ""); [contradiction|reflexivity]. }
    rewrite Hr. constructor; [exact Hr|exact IH].
Qed.

(** C6. [load_papers] records exactly the PDF files of the tree (files whose
    name ends in [.pdf] in any letter case) that yield a non-empty text:
    the loaded records are, in order, the records of those files; a file
    that cannot be read or yields the empty text gives no record; every
    loaded record comes from a name with the PDF extension.  When all N PDF
    files are readable with non-empty text, exactly N records are loaded,
    one per file, each with the file's name and path and, as non-empty
    content, the text of its first ten pages. *)
Theorem load_papers_records (service : Type) (fs : folder)
  (paper_dir : string) (s : state service) :
  let files := pdf_files paper_dir fs in
  exists b s',
    load_papers fs paper_dir s = (Ok b, s')
    /\ papers s' = omap record_of files
    /\ (forall f, In f files ->
          capped_text (snd f) = None \/ capped_text (snd f) = Some "" ->
          record_of f = None)
    /\ Forall (fun p => endswith (lower (filename p)) ".pdf" = true) (papers s')
    /\ (Forall (fun f => exists t, capped_text (snd f) = Some t /\ t <> "")
               files ->
        length (papers s') = length files
        /\ Forall2 (fun f p =>
                      filename p = fst (fst f) /\ filepath p = snd (fst f)
                      /\ content p <> ""
                      /\ capped_text (snd f) = Some (content p)
                      /\ scores p = JObj [])
                   files (papers s')).
Proof.
  intros files. do 2 eexists. split; [apply load_papers_run|].
  cbn [papers]. rewrite visit_papers_records. fold (pdf_files paper_dir fs).
  fold files. split; [reflexivity|]. split; [|split].
  - intros [[item item_path] doc] _ [H|H]; unfold record_of;
      simpl in H; rewrite H; reflexivity.
  - rewrite List.Forall_forall. intros p Hp.
    apply list_elem_of_In, list_elem_of_omap in Hp as (f & Hf & Hr).
    apply record_of_fields in Hr as (-> & _).
    destruct f as [[item item_path] doc].
    apply list_elem_of_In in Hf. unfold files, pdf_files in Hf.
    apply list_elem_of_In, list_elem_of_omap in Hf as ([i ip dc|dr e] & Hv & Hf);
      [|discriminate].
    injection Hf as -> -> ->.
    apply list_elem_of_In in Hv. now apply walk_found_pdf in Hv.
  - intros Hall. apply omap_record_of_all in Hall.
    split; [symmetry; eapply Forall2_length, Hall|].
    eapply Forall2_impl; [exact Hall|].
    intros f p Hr. now apply record_of_fields.
Qed.

(** A directory that cannot be listed is met by the walk. *)
Lemma denied_in_walk directory d path e :
  denied_in directory d path e -> In (Denied path e) (walk directory d).
Proof.
  induction 1 as [directory e|directory items item sub path e Hin _ IH].
  - now left.
  - cbn [walk]. apply in_flat_map. exists (item, Dir sub). now split.
Qed.

(** Pruning removes no file: the same records are loaded. *)
Lemma prune_same_records d : forall directory,
  flat_map visit_papers (walk directory (prune d))
  = flat_map visit_papers (walk directory d).
Proof.
  induction d as [e|items IH] using folder_tree_ind; intros directory.
  - reflexivity.
  - cbn [prune walk]. rewrite !flat_map_flat_map.
    induction IH as [|[item [doc|sub]] items Hx _ IHitems];
      [reflexivity| |]; cbn [flat_map]; rewrite IHitems; f_equal.
    + cbn [flat_map]. now rewrite app_nil_r.
    + simpl in Hx. destruct sub as [sub_items|e']; [|reflexivity].
      cbn [flat_map]. rewrite app_nil_r. apply Hx.
Qed.

(** A pruned listable directory has no unlistable directory below it. *)
Lemma prune_listable d : forall directory items path e,
  d = Listing items -> ~ denied_in directory (prune d) path e.
Proof.
  induction d as [e0|items0 IH] using folder_tree_ind;
    intros directory items path e Heq Hd; [discriminate|].
  cbn [prune] in Hd. inversion Hd as [|? ? item sub ? ? Hin Hsub]; subst.
  apply in_flat_map in Hin as ([item' e'] & Hin' & Hin).
  rewrite List.Forall_forall in IH. specialize (IH _ Hin').
  destruct e' as [doc|[sub_items|e'']]; simpl in IH, Hin.
  - destruct Hin as [[=]|[]].
  - destruct Hin as [[= <- <-]|[]].
    eapply IH; [reflexivity|exact Hsub].
  - destruct Hin.
Qed.

(** A file of the tree with the PDF extension is met by the walk. *)
Lemma file_in_walk directory d item item_path doc :
  file_in directory d item item_path doc ->
  endswith (lower item) ".pdf" = true ->
  In (Found item item_path doc) (walk directory d).
Proof.
  induction 1 as [directory items item doc Hin
                 |directory items name sub item item_path doc Hin _ IH];
    intros Hpdf; cbn [walk]; apply in_flat_map.
  - exists (item, File doc). split; [exact Hin|].
    simpl. rewrite Hpdf. now left.
  - exists (name, Dir sub). split; [exact Hin|]. now apply IH.
Qed.

(** The walk of a listing goes past an entry that cannot be listed. *)
Lemma walk_past_unlistable directory pre name e post :
  walk directory (Listing (pre ++ (name, Dir (Unlistable e)) :: post))
  = (walk directory (Listing pre)
     ++ Denied (os_path_join directory name) e
     :: walk directory (Listing post))%list.
Proof. cbn [walk]. now rewrite flat_map_app. Qed.

(** C7. For every directory tree, [load_papers] raises nothing, and the
    records it loads are the records of the PDF files of the tree.  A
    subdirectory that cannot be listed is skipped with the warning
    [Error accessing directory <path>: <error>], and its siblings are
    processed: when the root lists such a subdirectory between the entries
    [pre] and [post], the loaded records are those of [pre] followed by
    those of [post]; at any depth, every PDF file that is reached through
    listable directories and yields text is recorded.  The records are
    also those loaded from the tree without its unlistable subdirectories,
    in which none is left. *)
Theorem load_papers_skips_unlistable (service : Type) (fs : folder)
  (paper_dir : string) (s : state service) :
  exists b s',
    load_papers fs paper_dir s = (Ok b, s')
    /\ papers s' = omap record_of (pdf_files paper_dir fs)
    /\ (forall pre name e post,
          fs = Listing (pre ++ (name, Dir (Unlistable e)) :: post) ->
          papers s'
          = (omap record_of (pdf_files paper_dir (Listing pre))
             ++ omap record_of (pdf_files paper_dir (Listing post)))%list
          /\ In (EPrint ("Error accessing directory "
                         ++ os_path_join paper_dir name ++ ": " ++ e))
                (trace s'))
    /\ (forall item item_path doc p,
          file_in paper_dir fs item item_path doc ->
          endswith (lower item) ".pdf" = true ->
          record_of (item, item_path, doc) = Some p ->
          In p (papers s'))
    /\ papers s' = papers (snd (load_papers (prune fs) paper_dir s))
    /\ (forall items path e,
          fs = Listing items -> ~ denied_in paper_dir (prune fs) path e)
    /\ (forall path e,
          denied_in paper_dir fs path e ->
          In (EPrint ("Error accessing directory " ++ path ++ ": " ++ e))
             (trace s')).
Proof.
  do 2 eexists. split; [apply load_papers_run|].
  rewrite load_papers_run. cbn [papers trace snd].
  assert (Hwarn : forall path e,
             In (Denied path e) (walk paper_dir fs) ->
             In (EPrint ("Error accessing directory " ++ path ++ ": " ++ e))
                (trace s
                 ++ [EPrint ("Scanning for papers in " ++ paper_dir
                             ++ " and all subdirectories...")]
                 ++ flat_map visit_events (walk paper_dir fs)
                 ++ [EPrint ("Loaded "
                             ++ str_nat (length (flat_map visit_papers
                                                   (walk paper_dir fs)))
                             ++ " research papers from " ++ paper_dir
                             ++ " and subdirectories")])).
  { intros path e H. rewrite !in_app_iff. right. right. left.
    apply in_flat_map. exists (Denied path e). split; [exact H|now left]. }
  split; [apply visit_papers_records|].
  split; [|split; [|split; [|split]]].
  - intros pre name e post ->. split.
    + rewrite visit_papers_records. unfold pdf_files.
      rewrite walk_past_unlistable, omap_app. cbn [omap list_omap found_file].
      now rewrite omap_app.
    + apply Hwarn. rewrite walk_past_unlistable.
      apply in_or_app. right. now left.
  - intros item item_path doc p Hfile Hpdf Hrec.
    rewrite visit_papers_records.
    apply list_elem_of_In, list_elem_of_omap.
    exists (item, item_path, doc). split; [|exact Hrec].
    apply list_elem_of_omap. exists (Found item item_path doc).
    split; [|reflexivity].
    now apply list_elem_of_In, file_in_walk.
  - symmetry. apply prune_same_records.
  - intros items path e. apply prune_listable.
  - intros path e H. now apply Hwarn, denied_in_walk.
Qed.

(** ** Evaluation *)

Section Evaluation.

Variable service : Type.
Variable create : service -> string -> string -> outcome string * service.
Variable json_loads : string -> outcome json.
Implicit Type s : state service.

Lemma verdicts_length ps : forall c,
  length (verdicts create json_loads c ps) = length ps.
Proof.
  induction ps as [|p ps IH]; intros c; [reflexivity|].
  simpl. destruct (judge create json_loads c p) as [r c']. simpl.
  now rewrite IH.
Qed.

(** One iteration: whatever the Judge does, the iteration ends normally
    with the judgment of the call stored at index [i]. *)
Lemma analyze_paper_run i p s :
  papers s !! i = Some p ->
  analyze_paper create json_loads i p s
  = (Ok tt,
     State (<[i := set_scores p
                     (judgment (fst (judge create json_loads (client s) p)))]>
              (papers s))
           (trace s ++ paper_events (length (papers s)) i p
                         (fst (judge create json_loads (client s) p)))
           (snd (judge create json_loads (client s) p))).
Proof.
  intros Hi.
  unfold analyze_paper, judge, bind, get_papers, print, sleep,
    emit, try_except, chat_completions_create, lift, store_scores,
    paper_events.
  cbn [papers trace client].
  destruct (create (client s) slr_prompt (user_content (content p)))
    as [[response|e] c']; cbn [papers trace client fst snd obind judgment].
  - destruct (json_loads response) as [analysis|e];
      cbn [papers trace client judgment]; rewrite Hi;
      cbn [papers trace client]; now rewrite <- !app_assoc.
  - rewrite Hi. cbn [papers trace client]. now rewrite <- !app_assoc.
Qed.

Lemma for_papers_run (todo : list paper) : forall (done : list paper) s,
  papers s = (done ++ todo)%list ->
  for_papers create json_loads (length todo) (length done) s
  = (Ok tt,
     State (done ++ judged_papers create json_loads (client s) todo)
           (trace s ++ loop_events (length (papers s)) (length done) todo
                         (verdicts create json_loads (client s) todo))
           (service_after create json_loads (client s) todo)).
Proof.
  induction todo as [|p todo IH]; intros done s Hs.
  - simpl. unfold ret. destruct s as [ps tr c]. simpl in *.
    now rewrite Hs, !app_nil_r.
  - cbn [length for_papers]. unfold bind at 1, get_papers.
    assert (Hi : papers s !! length done = Some p)
      by (rewrite Hs; apply list_lookup_middle; reflexivity).
    rewrite Hi. unfold bind. rewrite (analyze_paper_run _ _ _ Hi).
    destruct (judge create json_loads (client s) p) as [r c'] eqn:Hj.
    cbn [fst snd].
    replace (S (length done))
      with (length (done ++ [set_scores p (judgment r)])%list)
      by (rewrite length_app; simpl; lia).
    rewrite IH.
    + cbn [papers trace client]. rewrite length_insert.
      unfold judged_papers. cbn [verdicts service_after].
      rewrite Hj. cbn [zip_with loop_events snd].
      rewrite <- !app_assoc. cbn [app].
      rewrite length_app, Nat.add_1_r. reflexivity.
    + cbn [papers]. rewrite Hs.
      rewrite insert_app_r_alt by lia. rewrite Nat.sub_diag.
      cbn [list_insert insert]. now rewrite <- app_assoc.
Qed.

(** The whole batch: either nothing to evaluate, or every record judged,
    never an exception. *)
Lemma analyze_papers_run s :
  analyze_papers create json_loads s
  = match papers s with
    | [] =>
      (Ok false,
       State [] (trace s ++ [EPrint "Error: No papers loaded. Cannot analyze."])
             (client s))
    | _ =>
      (Ok true,
       State (judged_papers create json_loads (client s) (papers s))
             (trace s
              ++ EPrint (nl ++ "Analyzing " ++ str_nat (length (papers s))
                         ++ " papers for healthcare AI implementation...")
              :: loop_events (length (papers s)) 0 (papers s)
                   (verdicts create json_loads (client s) (papers s)))
             (service_after create json_loads (client s) (papers s)))
    end.
Proof.
  unfold analyze_papers, bind at 1, get_papers.
  destruct (papers s) as [|p ps] eqn:Hs.
  - unfold bind, print, emit, ret. now rewrite Hs.
  - unfold bind at 1, print, emit. unfold bind.
    rewrite (for_papers_run (p :: ps) []) by exact Hs.
    cbn [papers trace client app ret]. unfold ret.
    rewrite Hs. now rewrite <- app_assoc.
Qed.

Lemma judged_papers_lookup c ps i p :
  ps !! i = Some p ->
  exists r,
    verdicts create json_loads c ps !! i = Some r
    /\ judged_papers create json_loads c ps !! i
       = Some (set_scores p (judgment r)).
Proof.
  intros Hp.
  destruct (verdicts create json_loads c ps !! i) as [r|] eqn:Hr.
  - exists r. split; [reflexivity|].
    unfold judged_papers. rewrite lookup_zip_with, Hp. simpl.
    now rewrite Hr.
  - apply lookup_ge_None in Hr. rewrite verdicts_length in Hr.
    apply lookup_lt_Some in Hp. lia.
Qed.

Lemma judged_papers_length c ps :
  length (judged_papers create json_loads c ps) = length ps.
Proof.
  unfold judged_papers. rewrite length_zip_with, verdicts_length. lia.
Qed.

Lemma judged_papers_fields {A} (f : paper -> A) c ps :
  (forall p v, f (set_scores p v) = f p) ->
  map f (judged_papers create json_loads c ps) = map f ps.
Proof.
  intros Hf. unfold judged_papers.
  generalize (verdicts_length ps c).
  generalize (verdicts create json_loads c ps) as rs.
  induction ps as [|p ps IH]; intros [|r rs] Hl; try discriminate;
    [reflexivity|].
  simpl. rewrite Hf. f_equal. apply IH. simpl in Hl. lia.
Qed.

(** C8 as amended. [analyze_papers] signals nothing to evaluate (returns
    false, the record list still empty) when given zero records; otherwise
    it returns true with a list of the same length in which the record at
    every index is the input record of that index carrying what its own
    Judge call left: the error judgment (an error text, inclusion false,
    score 0, recommendation "Error") when the call failed, the parsed
    answer as it is when the call succeeded.  A record is left without a
    judgment exactly when the answer of its call itself parsed to the
    empty object or to null. *)
Theorem analyze_papers_judges_every_record s :
  (papers s = [] ->
   exists s', analyze_papers create json_loads s = (Ok false, s')
              /\ papers s' = [])
  /\ (papers s <> [] ->
      exists s',
        analyze_papers create json_loads s = (Ok true, s')
        /\ length (papers s') = length (papers s)
        /\ forall i p,
             papers s !! i = Some p ->
             exists r p',
               verdicts create json_loads (client s) (papers s) !! i = Some r
               /\ papers s' !! i = Some p'
               /\ filename p' = filename p
               /\ filepath p' = filepath p
               /\ content p' = content p
               /\ match r with
                  | Ok analysis => scores p' = analysis
                  | Raise e =>
                    scores p'
                    = JObj [("error", JStr e);
                            ("meets_inclusion_criteria", JBool false);
                            ("overall_score", JNum 0);
                            ("recommendation", JStr "Error")]
                  end
               /\ (absent (scores p') = true
                   <-> exists analysis,
                         r = Ok analysis /\ absent analysis = true)).
Proof.
  rewrite analyze_papers_run. split.
  - intros ->. eexists. split; reflexivity.
  - intros Hne. destruct (papers s) as [|p0 ps] eqn:Hs; [contradiction|].
    eexists. split; [reflexivity|]. cbn [papers].
    split; [apply judged_papers_length|].
    intros i p Hp.
    destruct (judged_papers_lookup (client s) _ _ _ Hp) as (r & Hr & Hj).
    exists r, (set_scores p (judgment r)).
    split; [exact Hr|]. split; [exact Hj|].
    repeat (split; [reflexivity|]).
    destruct r as [analysis|e]; cbn [set_scores scores judgment].
    + split; [reflexivity|]. split.
      * intros Ha. now exists analysis.
      * now intros (a & [= <-] & Ha).
    + split; [reflexivity|]. split.
      * discriminate.
      * now intros (a & [=] & _).
Qed.

(** C2. When the Judge call of record [i] fails (the request raises or the
    answer cannot be parsed), the batch still runs to completion and
    returns true; record [i] carries the error judgment, with
    [meets_inclusion_criteria] false, [overall_score] 0, [recommendation]
    "Error" and [error] the failure description; and every other record
    carries the judgment of its own Judge call. *)
Theorem analyze_papers_judge_failure s (i : nat) (e : exn) :
  verdicts create json_loads (client s) (papers s) !! i = Some (Raise e) ->
  exists s' p p',
    analyze_papers create json_loads s = (Ok true, s')
    /\ papers s !! i = Some p
    /\ papers s' !! i = Some p'
    /\ p' = set_scores p (error_scores e)
    /\ field "meets_inclusion_criteria" p' = Some (JBool false)
    /\ field "overall_score" p' = Some (JNum 0)
    /\ field "recommendation" p' = Some (JStr "Error")
    /\ field "error" p' = Some (JStr e)
    /\ forall k q r,
         k <> i ->
         papers s !! k = Some q ->
         verdicts create json_loads (client s) (papers s) !! k = Some r ->
         papers s' !! k = Some (set_scores q (judgment r)).
Proof.
  intros Hi. rewrite analyze_papers_run.
  destruct (papers s) as [|p0 ps] eqn:Hs; [discriminate|].
  assert (Hlt : (i < length (p0 :: ps))%nat).
  { apply lookup_lt_Some in Hi. now rewrite verdicts_length in Hi. }
  destruct (lookup_lt_is_Some_2 _ _ Hlt) as [p Hp].
  destruct (judged_papers_lookup (client s) _ _ _ Hp) as (r & Hr & Hj).
  rewrite Hi in Hr. injection Hr as <-.
  exists (State (judged_papers create json_loads (client s) (p0 :: ps))
                (trace s
                 ++ EPrint (nl ++ "Analyzing " ++ str_nat (length (p0 :: ps))
                            ++ " papers for healthcare AI implementation...")
                 :: loop_events (length (p0 :: ps)) 0 (p0 :: ps)
                      (verdicts create json_loads (client s) (p0 :: ps)))
                (service_after create json_loads (client s) (p0 :: ps))),
    p, (set_scores p (error_scores e)).
  cbn [papers]. repeat (split; [first [reflexivity|assumption]|]).
  intros k q r _ Hq Hk.
  destruct (judged_papers_lookup (client s) _ _ _ Hq) as (r' & Hr' & Hj').
  rewrite Hk in Hr'. injection Hr' as <-. exact Hj'.
Qed.

(** C10. [analyze_papers] writes only the ['scores'] slot of the records:
    the list has the same length, and the file names, the file paths and
    the contents are, index by index, those before the evaluation. *)
Theorem analyze_papers_frame s :
  let s' := snd (analyze_papers create json_loads s) in
  length (papers s') = length (papers s)
  /\ map filename (papers s') = map filename (papers s)
  /\ map filepath (papers s') = map filepath (papers s)
  /\ map content (papers s') = map content (papers s)
  /\ Forall2 (fun p p' => p' = set_scores p (scores p'))
             (papers s) (papers s').
Proof.
  rewrite analyze_papers_run.
  destruct (papers s) as [|p0 ps] eqn:Hs; cbn [snd papers].
  - repeat split; constructor.
  - split; [apply judged_papers_length|].
    repeat (split; [now apply judged_papers_fields|]).
    apply Forall2_same_length_lookup_2.
    + now rewrite judged_papers_length.
    + intros i p p' Hp Hp'.
      destruct (judged_papers_lookup (client s) _ _ _ Hp) as (r & _ & Hj).
      rewrite Hj in Hp'. now injection Hp' as <-.
Qed.

Lemma loop_events_delayed ps : forall rs total i,
  length rs = length ps ->
  marked_calls_delayed (map is_ok rs) (loop_events total i ps rs) = true.
Proof.
  induction ps as [|p ps IH]; intros [|r rs] total i Hl; try discriminate;
    [reflexivity|].
  cbn [loop_events paper_events app map marked_calls_delayed].
  destruct r as [a|e]; cbn [is_ok app delay_follows marked_calls_delayed].
  - apply IH. simpl in Hl. lia.
  - apply IH. simpl in Hl. lia.
Qed.

Lemma loop_events_requests ps : forall rs total i,
  length rs = length ps ->
  length (List.filter is_request (loop_events total i ps rs)) = length ps.
Proof.
  induction ps as [|p ps IH]; intros [|r rs] total i Hl; try discriminate;
    [reflexivity|].
  cbn [loop_events paper_events app List.filter is_request length].
  destruct r as [a|e]; cbn [app List.filter is_request];
    (rewrite IH; [reflexivity|simpl in Hl; lia]).
Qed.

(** The delay on the path of a call that succeeds: the run makes one
    request per record, in order, and in what it adds to the trace the
    request of every record whose call succeeded is followed by the delay
    of half a time unit before the next request. *)
Theorem analyze_papers_delay_after_success s :
  exists b s' evs,
    analyze_papers create json_loads s = (b, s')
    /\ trace s' = (trace s ++ evs)%list
    /\ length (List.filter is_request evs) = length (papers s)
    /\ marked_calls_delayed
         (map is_ok (verdicts create json_loads (client s) (papers s))) evs
       = true.
Proof.
  rewrite analyze_papers_run.
  destruct (papers s) as [|p0 ps] eqn:Hs.
  - do 3 eexists. split; [reflexivity|]. repeat split; reflexivity.
  - do 3 eexists. split; [reflexivity|]. split; [reflexivity|].
    cbn [marked_calls_delayed List.filter is_request]. split.
    + apply loop_events_requests, verdicts_length.
    + apply loop_events_delayed, verdicts_length.
Qed.

End Evaluation.

(** ** Domain counts *)

Lemma py_eq_sym a b : py_eq a b = py_eq b a.
Proof.
  unfold py_eq.
  destruct a as [|[]| | | |], b as [|[]| | | |]; cbn [as_int];
    try reflexivity; try apply Z.eqb_sym; apply String.eqb_sym.
Qed.

Lemma py_eq_trans a b c :
  py_eq a b = true -> py_eq b c = true -> py_eq a c = true.
Proof.
  unfold py_eq.
  destruct a as [|[]|x|sa| |], b as [|[]|y|sb| |], c as [|[]|z|sc| |];
    cbn [as_int]; try discriminate; try reflexivity;
    rewrite ?Z.eqb_eq, ?String.eqb_eq; congruence.
Qed.

Lemma py_eq_compat a b k :
  py_eq a b = true -> py_eq a k = py_eq b k.
Proof.
  intros H. destruct (py_eq a k) eqn:Ha, (py_eq b k) eqn:Hb; try reflexivity.
  - rewrite py_eq_sym in H. now rewrite (py_eq_trans _ _ _ H Ha) in Hb.
  - now rewrite (py_eq_trans _ _ _ H Hb) in Ha.
Qed.

(** Reading a dict after one assignment. *)
Lemma counts_get_set d k n k' default :
  counts_get (counts_set d k n) k' default
  = if py_eq k k' then n else counts_get d k' default.
Proof.
  induction d as [|[k1 n1] d IH]; [reflexivity|].
  cbn [counts_set counts_get]. destruct (py_eq k1 k) eqn:E;
    cbn [counts_get].
  - rewrite (py_eq_compat _ _ k' E). now destruct (py_eq k k').
  - rewrite IH. destruct (py_eq k1 k') eqn:E'; [|reflexivity].
    destruct (py_eq k k') eqn:E''; [|reflexivity].
    rewrite (py_eq_sym k k') in E''.
    now rewrite (py_eq_trans _ _ _ E' E'') in E.
Qed.

Lemma counts_get_compat d a b default :
  py_eq a b = true -> counts_get d a default = counts_get d b default.
Proof.
  intros H. induction d as [|[k1 n1] d IH]; [reflexivity|].
  simpl. rewrite IH.
  now rewrite (py_eq_sym k1 a), (py_eq_sym k1 b), (py_eq_compat _ _ _ H).
Qed.

(** Counting one more paper under a key adds one to the sum. *)
Lemma sum_values_incr d k :
  sum_values (counts_set d k (counts_get d k 0 + 1)) = sum_values d + 1.
Proof.
  unfold sum_values. induction d as [|[k1 n1] d IH]; [reflexivity|].
  simpl. destruct (py_eq k1 k); simpl; lia.
Qed.

Lemma count_domain_countable d p :
  countable_domain p = true ->
  count_domain d p
  = Ok (counts_set d (healthcare_domain p)
          (counts_get d (healthcare_domain p) 0 + 1)).
Proof.
  unfold countable_domain, count_domain, healthcare_domain, field, dict_get.
  destruct (scores p) as [| | | | |kvs]; try discriminate.
  simpl. now intros ->.
Qed.

Lemma count_domains_run ps : forall d,
  forallb countable_domain ps = true ->
  exists domains,
    count_domains d ps = Ok domains
    /\ sum_values domains = sum_values d + Z.of_nat (length ps)
    /\ forall k, counts_get domains k 0
                 = counts_get d k 0 + papers_of_domain k ps.
Proof.
  induction ps as [|p ps IH]; intros d H.
  - exists d. unfold papers_of_domain. simpl.
    repeat split; intros; lia.
  - simpl in H. apply andb_true_iff in H as [Hp Hps].
    cbn [count_domains]. rewrite (count_domain_countable d p Hp).
    cbn [obind].
    destruct (IH (counts_set d (healthcare_domain p)
                    (counts_get d (healthcare_domain p) 0 + 1)) Hps)
      as (domains & Hrun & Hsum & Hget).
    exists domains. split; [exact Hrun|]. split.
    + rewrite Hsum, sum_values_incr. simpl length. lia.
    + intros k. rewrite Hget, counts_get_set.
      unfold papers_of_domain. simpl List.filter.
      destruct (py_eq (healthcare_domain p) k) eqn:E; simpl length.
      * rewrite (counts_get_compat d _ _ 0 E). lia.
      * lia.
Qed.

(** C9. For every list of papers carrying judgments whose included papers
    have a domain value that can be counted, the counting loop of
    [generate_detailed_review] runs over the ranked (included) papers
    without raising; every included paper contributes to exactly one
    count, the one of its [healthcare_domain], a paper whose judgment has
    no [healthcare_domain] being counted under "Unspecified"; so the counts
    sum to the number of included papers.  The method reaches the loop
    unless one of the sections of the ten top papers raises, and whenever
    it has filled [domains], the dict is this one. *)
Theorem domain_counts_sum_to_included (ps : list paper) :
  forallb judged ps = true ->
  forallb countable_domain (List.filter meets_inclusion_criteria ps) = true ->
  exists ranked domains,
    rank_papers ps = Ok ranked
    /\ count_domains [] ranked = Ok domains
    /\ generate_detailed_review_domains ps
       = match ranked with
         | [] => Ok None
         | _ => obind (map_outcome review_section (slice_to 10 ranked))
                      (fun _ => Ok (Some domains))
         end
    /\ (forall d, generate_detailed_review_domains ps = Ok (Some d) ->
                  d = domains)
    /\ sum_values domains = Z.of_nat (length ranked)
    /\ length ranked = length (List.filter meets_inclusion_criteria ps)
    /\ (forall k, counts_get domains k 0 = papers_of_domain k ranked)
    /\ (forall p, In p ranked -> field "healthcare_domain" p = None ->
                  healthcare_domain p = JStr "Unspecified").
Proof.
  intros Hj Hc.
  destruct (rank_papers_permutation ps Hj) as (ranked & Hr & Hperm).
  assert (Hcr : forallb countable_domain ranked = true).
  { rewrite forallb_forall in Hc |- *. intros p Hp. apply Hc.
    now apply (Permutation_in _ Hperm). }
  destruct (count_domains_run ranked [] Hcr) as (domains & Hd & Hsum & Hget).
  assert (Hg : generate_detailed_review_domains ps
               = match ranked with
                 | [] => Ok None
                 | _ => obind (map_outcome review_section (slice_to 10 ranked))
                              (fun _ => Ok (Some domains))
                 end).
  { unfold generate_detailed_review_domains. rewrite Hr. cbn [obind].
    destruct ranked; [reflexivity|]. now rewrite Hd. }
  exists ranked, domains. split; [exact Hr|]. split; [exact Hd|].
  split; [exact Hg|]. split; [|split; [|split; [|split]]].
  - intros d. rewrite Hg. destruct ranked; [discriminate|].
    destruct (map_outcome review_section _); [|discriminate].
    cbn [obind]. now intros [= <-].
  - rewrite Hsum. reflexivity.
  - now apply Permutation_length.
  - intros k. rewrite Hget. reflexivity.
  - intros p _ H. unfold healthcare_domain. now rewrite H.
Qed.

(** ** The statements on concrete inputs *)

(** C3. With [max_pages = 0] the condition [if max_pages] is false and the
    cap is not applied: on a two-page document both pages are read, where
    min(2, 0) = 0 pages were to be read. *)
Theorem extract_text_from_pdf_max_pages_zero :
  pages_to_read 2 (Some 0) = 2
  /\ extract_text_from_pdf (fun _ => two_pages) "papers/a.pdf" (Some 0) idle
     = (Ok ("Abstract" ++ nl ++ "Introduction" ++ nl), idle).
Proof. split; reflexivity. Qed.

Lemma extract_text_from_pdf_failure_witness :
  extraction_fails broken_page (Some 10)
  /\ exists e,
       extract_text_from_pdf (fun _ => broken_page) "papers/a.pdf" (Some 10)
         idle
       = (Ok "",
          State [] [EPrint ("Error extracting text from papers/a.pdf: " ++ e)]
                tt).
Proof.
  assert (H : extraction_fails broken_page (Some 10)).
  { exists 1%nat, "Invalid stream". split; [reflexivity|reflexivity]. }
  split; [exact H|].
  exact (extract_text_from_pdf_failure unit (fun _ => broken_page)
           "papers/a.pdf" (Some 10) idle H).
Defined.

Lemma load_papers_records_witness :
  Forall (fun f => exists t, capped_text (snd f) = Some t /\ t <> "")
         (pdf_files "papers" open_tree)
  /\ length (pdf_files "papers" open_tree) = 2%nat
  /\ exists b s',
       load_papers open_tree "papers" idle = (Ok b, s')
       /\ length (papers s') = 2%nat.
Proof.
  assert (H : Forall (fun f => exists t, capped_text (snd f) = Some t /\ t <> "")
                     (pdf_files "papers" open_tree)).
  { repeat constructor; eexists; (split; [reflexivity|discriminate]). }
  split; [exact H|]. split; [reflexivity|].
  destruct (load_papers_records unit open_tree "papers" idle)
    as (b & s' & Hrun & _ & _ & _ & Hall).
  exists b, s'. split; [exact Hrun|].
  destruct (Hall H) as [Hlen _]. rewrite Hlen. reflexivity.
Defined.

Lemma load_papers_skips_unlistable_witness :
  papers_tree
  = Listing ([("a.pdf", File two_pages);
              ("notes.txt", File (Raise "EOF marker not found"))]
             ++ ("locked", Dir (Unlistable "Permission denied"))
             :: [("cardiology",
                  Dir (Listing [("B.PDF", File (Ok [Ok "Methods"]))]))])
  /\ file_in "papers" papers_tree "B.PDF" "papers/cardiology/B.PDF"
       (Ok [Ok "Methods"])
  /\ exists b s',
       load_papers papers_tree "papers" idle = (Ok b, s')
       /\ papers s'
          = [Paper "a.pdf" "papers/a.pdf"
               ("Abstract" ++ nl ++ "Introduction" ++ nl) (JObj []);
             Paper "B.PDF" "papers/cardiology/B.PDF" ("Methods" ++ nl)
               (JObj [])]
       /\ In (Paper "B.PDF" "papers/cardiology/B.PDF" ("Methods" ++ nl)
                (JObj []))
             (papers s')
       /\ In (EPrint "Error accessing directory papers/locked: Permission denied")
             (trace s').
Proof.
  assert (Hsplit : papers_tree
            = Listing ([("a.pdf", File two_pages);
                        ("notes.txt", File (Raise "EOF marker not found"))]
                       ++ ("locked", Dir (Unlistable "Permission denied"))
                       :: [("cardiology",
                            Dir (Listing [("B.PDF",
                                           File (Ok [Ok "Methods"]))]))]))
    by reflexivity.
  assert (Hfile : file_in "papers" papers_tree "B.PDF"
                    "papers/cardiology/B.PDF" (Ok [Ok "Methods"])).
  { apply (file_below "papers" _ "cardiology"
             (Listing [("B.PDF", File (Ok [Ok "Methods"]))])).
    - right. right. right. left. reflexivity.
    - apply (file_here "papers/cardiology"
               [("B.PDF", File (Ok [Ok "Methods"]))] "B.PDF").
      left. reflexivity. }
  split; [exact Hsplit|]. split; [exact Hfile|].
  destruct (load_papers_skips_unlistable unit papers_tree "papers" idle)
    as (b & s' & Hrun & _ & Hsib & Hany & _ & _ & _).
  exists b, s'. split; [exact Hrun|].
  destruct (Hsib _ _ _ _ Hsplit) as [Hrec Hwarn].
  split; [exact Hrec|]. split; [|exact Hwarn].
  apply (Hany "B.PDF" "papers/cardiology/B.PDF" (Ok [Ok "Methods"]));
    [exact Hfile|reflexivity|reflexivity].
Defined.

Lemma analyze_papers_judges_every_record_witness :
  papers two_loaded <> []
  /\ exists s' p',
       analyze_papers flaky_create loads_object two_loaded = (Ok true, s')
       /\ length (papers s') = 2%nat
       /\ papers s' !! 0%nat = Some p'
       /\ scores p'
          = JObj [("error", JStr "Connection error.");
                  ("meets_inclusion_criteria", JBool false);
                  ("overall_score", JNum 0);
                  ("recommendation", JStr "Error")]
       /\ absent (scores p') = false.
Proof.
  assert (H : papers two_loaded <> []) by discriminate.
  split; [exact H|].
  destruct (proj2 (analyze_papers_judges_every_record nat flaky_create
                     loads_object two_loaded) H) as (s' & Hrun & Hlen & Hall).
  destruct (Hall 0%nat (Paper "a.pdf" "papers/a.pdf" "Abstract" (JObj []))
              eq_refl) as (r & p' & Hr & Hp' & _ & _ & _ & Hs & _).
  assert (E : r = Raise "Connection error.")
    by (vm_compute in Hr; now injection Hr as <-).
  subst r. exists s', p'. split; [exact Hrun|]. split; [exact Hlen|].
  split; [exact Hp'|]. split; [exact Hs|]. now rewrite Hs.
Defined.

(** C8 as stated fails: a Judge answer that parses to the empty object is
    stored as it is; the batch returns true and the second record is
    returned as it was loaded, with the empty dict it had before the
    evaluation. *)
Lemma analyze_papers_leaves_empty_answer :
  exists s' p',
    analyze_papers flaky_create loads_object two_loaded = (Ok true, s')
    /\ verdicts flaky_create loads_object (client two_loaded)
         (papers two_loaded) !! 1%nat = Some (Ok (JObj []))
    /\ papers two_loaded !! 1%nat
       = Some (Paper "B.PDF" "papers/cardiology/B.PDF" "Methods" (JObj []))
    /\ papers s' !! 1%nat = Some p'
    /\ papers s' !! 1%nat = papers two_loaded !! 1%nat
    /\ scores p' = JObj []
    /\ absent (scores p') = true.
Proof.
  eexists. exists (Paper "B.PDF" "papers/cardiology/B.PDF" "Methods" (JObj [])).
  split; [vm_compute; reflexivity|]. repeat split.
Qed.

Lemma analyze_papers_judge_failure_witness :
  verdicts flaky_create loads_object (client two_loaded) (papers two_loaded)
    !! 0%nat = Some (Raise "Connection error.")
  /\ exists s' p',
       analyze_papers flaky_create loads_object two_loaded = (Ok true, s')
       /\ papers s' !! 0%nat = Some p'
       /\ field "recommendation" p' = Some (JStr "Error")
       /\ papers s' !! 1%nat
          = Some (Paper "B.PDF" "papers/cardiology/B.PDF" "Methods" (JObj [])).
Proof.
  assert (H : verdicts flaky_create loads_object (client two_loaded)
                (papers two_loaded) !! 0%nat
              = Some (Raise "Connection error.")) by reflexivity.
  split; [exact H|].
  destruct (analyze_papers_judge_failure nat flaky_create loads_object
              two_loaded 0%nat "Connection error." H)
    as (s' & p & p' & Hrun & _ & Hp' & _ & _ & _ & Hrec & _ & Hother).
  exists s', p'. split; [exact Hrun|]. split; [exact Hp'|].
  split; [exact Hrec|].
  apply (Hother 1%nat (Paper "B.PDF" "papers/cardiology/B.PDF" "Methods"
                         (JObj [])) (Ok (JObj []))).
  - discriminate.
  - reflexivity.
  - reflexivity.
Defined.

(** C4. The delay is to follow every Judge call, and the code applies it
    after a call that succeeds, as its comment "Small delay to respect
    rate limits" says; after a call that fails it does not: when the Judge
    call of the only paper raises, the run makes that request and finishes
    without any delay. *)
Theorem analyze_papers_no_delay_after_failure :
  every_call_delayed failed_run_trace = false
  /\ existsb is_request failed_run_trace = true
  /\ existsb is_delay failed_run_trace = false.
Proof. vm_compute. repeat split; reflexivity. Qed.

Lemma domain_counts_sum_to_included_witness :
  forallb judged [paper_A; paper_D; paper_B] = true
  /\ forallb countable_domain
       (List.filter meets_inclusion_criteria [paper_A; paper_D; paper_B]) = true
  /\ exists domains,
       generate_detailed_review_domains [paper_A; paper_D; paper_B]
       = Ok (Some domains)
       /\ sum_values domains = 3
       /\ counts_get domains (JStr "Unspecified") 0 = 2.
Proof.
  split; [reflexivity|]. split; [reflexivity|].
  destruct (domain_counts_sum_to_included [paper_A; paper_D; paper_B]
              eq_refl eq_refl)
    as (ranked & domains & Hr & _ & Hg & _ & Hsum & Hlen & Hget & _).
  exists domains.
  assert (E : rank_papers [paper_A; paper_D; paper_B]
              = Ok [paper_B; paper_D; paper_A]) by reflexivity.
  rewrite E in Hr. injection Hr as <-.
  split; [exact Hg|]. split; [exact Hsum|].
  rewrite Hget. reflexivity.
Defined.

(** * Further properties of the code *)

(** ** Extraction, when it succeeds and at its edges *)

(** X1. When the document opens and every page that is read can be
    extracted, [extract_text_from_pdf] returns the texts of these pages,
    each followed by a newline, prints nothing and changes nothing. *)
Theorem extract_text_from_pdf_success (service : Type)
  (PdfReader : string -> pdf) (pdf_path : string) (max_pages : option Z)
  (s : state service) (pages : list (outcome string)) (texts : list string) :
  PdfReader pdf_path = Ok pages ->
  page_texts (take (Z.to_nat (pages_to_read (length pages) max_pages)) pages)
  = Some texts ->
  extract_text_from_pdf PdfReader pdf_path max_pages s
  = (Ok (concat_pages texts), s).
Proof.
  intros Hr Ht. rewrite extract_text_from_pdf_run. unfold extraction.
  rewrite Hr. cbn [obind]. now rewrite (page_text_texts _ "" texts Ht).
Qed.

Lemma extract_text_from_pdf_success_witness :
  extract_text_from_pdf (fun _ => two_pages) "papers/a.pdf" (Some 1) idle
  = (Ok ("Abstract" ++ nl), idle).
Proof.
  exact (extract_text_from_pdf_success unit (fun _ => two_pages)
           "papers/a.pdf" (Some 1) idle
           [Ok "Abstract"; Ok "Introduction"] ["Abstract"]
           eq_refl eq_refl).
Defined.

(** X2. With a negative [max_pages] no page is read: whatever the pages
    of a document that opens, the result is the empty string, and no
    failure is printed. *)
Theorem extract_text_from_pdf_negative_cap (service : Type)
  (PdfReader : string -> pdf) (pdf_path : string) (m : Z)
  (s : state service) (pages : list (outcome string)) :
  m < 0 ->
  PdfReader pdf_path = Ok pages ->
  extract_text_from_pdf PdfReader pdf_path (Some m) s = (Ok "", s).
Proof.
  intros Hm Hr. rewrite extract_text_from_pdf_run. unfold extraction.
  rewrite Hr. cbn [obind]. rewrite pages_to_read_capped by lia.
  replace (Z.to_nat (Z.min (Z.of_nat (length pages)) m)) with 0%nat by lia.
  reflexivity.
Qed.

Lemma extract_text_from_pdf_negative_cap_witness :
  extract_text_from_pdf (fun _ => broken_page) "papers/a.pdf" (Some (-1)) idle
  = (Ok "", idle).
Proof.
  apply (extract_text_from_pdf_negative_cap unit (fun _ => broken_page)
           "papers/a.pdf" (-1) idle [Ok "Abstract"; Raise "Invalid stream"]).
  - reflexivity.
  - reflexivity.
Defined.

(** ** Loading *)

Lemma concat_pages_nonempty texts : texts <> [] -> concat_pages texts <> "".
Proof.
  destruct texts as [|t texts]; [contradiction|]. intros _.
  cbn [concat_pages]. destruct t; discriminate.
Qed.

Lemma page_texts_length pages texts :
  page_texts pages = Some texts -> length texts = length pages.
Proof.
  revert texts. induction pages as [|[t|e] pages IH]; intros texts H;
    simpl in H.
  - now injection H as <-.
  - destruct (page_texts pages) as [ts|]; [|discriminate].
    injection H as <-. simpl. now rewrite (IH ts).
  - discriminate.
Qed.

(** X3. A PDF file that opens, has at least one page and whose first ten
    pages can be extracted is always recorded, with the text of these
    pages as content, even when every page gives the empty text: the
    newline added after each page makes the text non-empty. *)
Theorem load_papers_records_blank_pages (service : Type) (fs : folder)
  (paper_dir : string) (s : state service) (item item_path : string)
  (pages : list (outcome string)) (texts : list string) :
  In (item, item_path, Ok pages) (pdf_files paper_dir fs) ->
  pages <> [] ->
  page_texts (take 10 pages) = Some texts ->
  In {| filename := item; filepath := item_path;
        content := concat_pages texts; scores := JObj [] |}
     (papers (snd (load_papers fs paper_dir s))).
Proof.
  intros Hin Hne Ht. rewrite load_papers_run. cbn [snd papers].
  rewrite visit_papers_records. fold (pdf_files paper_dir fs).
  apply list_elem_of_In, list_elem_of_omap.
  exists (item, item_path, Ok pages). split; [now apply list_elem_of_In|].
  unfold record_of, capped_text. rewrite Ht. cbn [option_map].
  assert (Hc : concat_pages texts <> "").
  { apply concat_pages_nonempty. intros ->.
    apply page_texts_length in Ht. simpl in Ht.
    destruct pages; [contradiction|discriminate]. }
  destruct (String.eqb_spec (concat_pages texts) ""); [contradiction|].
  reflexivity.
Qed.

Lemma load_papers_records_blank_pages_witness :
  In (Paper "scan.pdf" "papers/scan.pdf" (nl ++ nl) (JObj []))
     (papers (snd (load_papers scanned_tree "papers" idle))).
Proof.
  apply (load_papers_records_blank_pages unit scanned_tree "papers" idle
           "scan.pdf" "papers/scan.pdf" [Ok ""; Ok ""] [""; ""]).
  - left. reflexivity.
  - discriminate.
  - reflexivity.
Defined.

Lemma visit_events_no_request vs :
  List.filter is_request (flat_map visit_events vs) = [].
Proof.
  induction vs as [|[item item_path doc|directory e] vs IH];
    [reflexivity| |exact IH].
  cbn [flat_map]. rewrite List.filter_app, IH, app_nil_r.
  unfold visit_events. now destruct (extraction doc (Some 10)).
Qed.

(** X4. [load_papers] starts from an empty list: the records it leaves do
    not depend on what was loaded or judged before, so loading again gives
    the same records and not twice as many.  It makes no request to the
    Judge, and its result is true exactly when a record was loaded. *)
Theorem load_papers_fresh (service : Type) (fs : folder) (paper_dir : string)
  (s : state service) :
  exists b s',
    load_papers fs paper_dir s = (Ok b, s')
    /\ (forall s0 : state service,
          papers (snd (load_papers fs paper_dir s0)) = papers s')
    /\ papers (snd (load_papers fs paper_dir s')) = papers s'
    /\ client s' = client s
    /\ List.filter is_request (trace s') = List.filter is_request (trace s)
    /\ (b = true <-> papers s' <> []).
Proof.
  do 2 eexists. split; [apply load_papers_run|]. cbn [papers trace client].
  split; [intros s0; now rewrite load_papers_run|].
  split; [now rewrite load_papers_run|].
  split; [reflexivity|]. split.
  - rewrite !List.filter_app, visit_events_no_request. cbn [List.filter is_request].
    now rewrite !app_nil_r.
  - destruct (flat_map visit_papers (walk paper_dir fs)); simpl; split;
      try discriminate; try reflexivity; intros H; now contradiction H.
Qed.

(** X5. [analyze_papers] run on what [load_papers] left returns what
    [load_papers] returned: a load that found papers is never followed by
    the "nothing to analyze" outcome, and a load that found none always
    is. *)
Theorem analyze_papers_after_load (service : Type)
  (create : service -> string -> string -> outcome string * service)
  (json_loads : string -> outcome json)
  (fs : folder) (paper_dir : string) (s : state service) :
  exists b s',
    load_papers fs paper_dir s = (Ok b, s')
    /\ fst (analyze_papers create json_loads s') = Ok b.
Proof.
  do 2 eexists. split; [apply load_papers_run|].
  rewrite analyze_papers_run. cbn [papers].
  now destruct (flat_map visit_papers (walk paper_dir fs)).
Qed.

(** Every loaded record still has the empty judgment. *)
Lemma load_papers_unjudged (service : Type) (fs : folder) (paper_dir : string)
  (s : state service) :
  Forall (fun p => scores p = JObj [])
         (papers (snd (load_papers fs paper_dir s))).
Proof.
  rewrite load_papers_run. cbn [snd papers]. rewrite visit_papers_records.
  rewrite List.Forall_forall. intros p Hp.
  apply list_elem_of_In, list_elem_of_omap in Hp as (f & _ & Hr).
  now apply record_of_fields in Hr.
Qed.

Lemma unjudged_judged ps :
  Forall (fun p => scores p = JObj []) ps -> forallb judged ps = true.
Proof.
  induction 1 as [|p ps Hp _ IH]; [reflexivity|].
  simpl. rewrite IH. unfold judged. now rewrite Hp.
Qed.

Lemma unjudged_not_included ps :
  Forall (fun p => scores p = JObj []) ps ->
  List.filter meets_inclusion_criteria ps = [].
Proof.
  induction 1 as [|p ps Hp _ IH]; [reflexivity|].
  simpl. rewrite IH. unfold meets_inclusion_criteria, field. now rewrite Hp.
Qed.

(** X7. Before the evaluation nothing is ranked and nothing is reported:
    on the records [load_papers] leaves, [rank_papers] returns the empty
    list, [visualize_results] returns before drawing and
    [generate_detailed_review] returns before writing. *)
Theorem rank_papers_before_analysis (service : Type) (fs : folder)
  (paper_dir : string) (s : state service) (top_n : Z) :
  let loaded := papers (snd (load_papers fs paper_dir s)) in
  rank_papers loaded = Ok []
  /\ visualize_results_bars loaded top_n = Ok None
  /\ generate_detailed_review_summary loaded = Ok None.
Proof.
  intros loaded.
  pose proof (load_papers_unjudged service fs paper_dir s) as Hu.
  fold loaded in Hu.
  assert (Hr : rank_papers loaded = Ok []).
  { rewrite (rank_papers_judged _ (unjudged_judged _ Hu)).
    now rewrite (unjudged_not_included _ Hu). }
  split; [exact Hr|]. split.
  - unfold visualize_results_bars.
    rewrite (filter_outcome_judged _ (unjudged_judged _ Hu)).
    now rewrite (unjudged_not_included _ Hu).
  - unfold generate_detailed_review_summary. now rewrite Hr.
Qed.

(** ** Paths *)

Lemma length_append (s t : string) :
  String.length (s ++ t) = (String.length s + String.length t)%nat.
Proof.
  induction s as [|c s IH]; [reflexivity|].
  change (S (String.length (s ++ t)) = S (String.length s + String.length t)).
  now rewrite IH.
Qed.

Lemma substring_all (s : string) : substring 0 (String.length s) s = s.
Proof. induction s as [|c s IH]; simpl; [reflexivity|now rewrite IH]. Qed.

Lemma substring_skip (s t : string) (m : nat) :
  substring (String.length s) m (s ++ t) = substring 0 m t.
Proof.
  induction s as [|c s IH]; [reflexivity|].
  change (substring (S (String.length s)) m (String c (s ++ t))
          = substring 0 m t).
  simpl. exact IH.
Qed.

Lemma rfind_range c s : -1 <= rfind c s < Z.of_nat (String.length s).
Proof.
  induction s as [|a s IH]; simpl rfind; simpl String.length; [lia|].
  destruct (Z.leb_spec 0 (rfind c s)); [lia|].
  destruct (Ascii.eqb a c); lia.
Qed.

Lemma rfind_append c s t :
  rfind c (s ++ t)
  = if 0 <=? rfind c t then Z.of_nat (String.length s) + rfind c t
    else rfind c s.
Proof.
  induction s as [|a s IH].
  - change ("" ++ t) with t. simpl.
    destruct (Z.leb_spec 0 (rfind c t)); [reflexivity|].
    pose proof (rfind_range c t). lia.
  - change (String a s ++ t) with (String a (s ++ t)).
    cbn [rfind String.length]. rewrite IH.
    destruct (Z.leb_spec 0 (rfind c t)).
    + destruct (Z.leb_spec 0 (Z.of_nat (String.length s) + rfind c t)); lia.
    + reflexivity.
Qed.

Lemma rfind_slash_free s : slash_free s = true -> rfind "/" s = -1.
Proof.
  induction s as [|a s IH]; [reflexivity|].
  simpl. intros H. apply andb_true_iff in H as [Ha Hs].
  rewrite (IH Hs). simpl. apply negb_true_iff in Ha. now rewrite Ha.
Qed.

Lemma append_assoc_rev (s t u : string) : s ++ t ++ u = (s ++ t) ++ u.
Proof. symmetry. apply append_assoc. Qed.

(** The base name of [s ++ "/" ++ item] is [item]. *)
Lemma basename_after_slash s item :
  slash_free item = true -> os_path_basename (s ++ "/" ++ item) = item.
Proof.
  intros H. unfold os_path_basename, slice_from.
  rewrite append_assoc_rev. rewrite rfind_append, (rfind_slash_free _ H).
  cbn [Z.leb Z.compare]. rewrite rfind_append. cbn [rfind].
  cbn [Z.leb Z.compare Ascii.eqb Bool.eqb]. 
  rewrite !length_append. cbn [String.length].
  replace (Z.to_nat (Z.of_nat (String.length s) + 0 + 1))
    with (String.length (s ++ "/")) by (rewrite length_append; simpl; lia).
  rewrite substring_skip.
  replace (String.length s + 1 + String.length item
           - String.length (s ++ "/"))%nat
    with (String.length item) by (rewrite length_append; simpl; lia).
  apply substring_all.
Qed.

Lemma endswith_slash a : endswith a "/" = true -> exists y, a = y ++ "/".
Proof.
  unfold endswith. cbn [String.length].
  induction a as [|c rest IH]; [discriminate|].
  intros H. apply andb_true_iff in H as [_ H]. apply String.eqb_eq in H.
  cbn [String.length] in H. rewrite Nat.sub_succ, Nat.sub_0_r in H.
  destruct rest as [|c' rest'].
  - simpl in H. exists "". exact H.
  - cbn [String.length substring] in H.
    destruct IH as [y Hy].
    + apply andb_true_iff. split; [reflexivity|].
      apply String.eqb_eq. cbn [String.length].
      now rewrite Nat.sub_succ, Nat.sub_0_r.
    + exists (String c y). rewrite Hy. reflexivity.
Qed.

Lemma prefix_slash item :
  slash_free item = true -> String.prefix "/" item = false.
Proof.
  destruct item as [|c rest]; [reflexivity|].
  cbn [slash_free]. intros H. apply andb_true_iff in H as [H _].
  apply negb_true_iff, Ascii.eqb_neq in H.
  change (String.prefix "/" (String c rest))
    with (if ascii_dec "/" c then String.prefix "" rest else false).
  destruct (ascii_dec "/" c) as [E|E]; [|reflexivity].
  now contradiction H.
Qed.

(** [os.path.basename] undoes [os.path.join] on a listed name. *)
Lemma basename_join a item :
  slash_free item = true -> os_path_basename (os_path_join a item) = item.
Proof.
  intros H. unfold os_path_join. rewrite (prefix_slash _ H).
  destruct (String.eqb_spec a "") as [->|_].
  - cbn [orb]. change ("" ++ item) with item.
    unfold os_path_basename, slice_from. rewrite (rfind_slash_free _ H).
    cbn [Z.add Z.to_nat]. rewrite Nat.sub_0_r. apply substring_all.
  - cbn [orb]. destruct (endswith a "/") eqn:E.
    + destruct (endswith_slash _ E) as [y ->].
      rewrite append_assoc. now apply basename_after_slash.
    + now apply basename_after_slash.
Qed.

Lemma walk_found_path d : forall directory item item_path doc,
  listed_names d = true ->
  In (Found item item_path doc) (walk directory d) ->
  slash_free item = true /\ exists parent, item_path = os_path_join parent item.
Proof.
  induction d as [e|items IH] using folder_tree_ind;
    intros directory item item_path doc Hn H.
  - destruct H as [H|[]]. discriminate.
  - cbn [walk] in H. apply in_flat_map in H as ([item' e'] & Hin & H).
    cbn [listed_names] in Hn. rewrite forallb_forall in Hn.
    specialize (Hn _ Hin). apply andb_true_iff in Hn as [Hs He].
    rewrite List.Forall_forall in IH. specialize (IH _ Hin).
    destruct e' as [doc'|sub]; simpl in IH.
    + destruct (endswith (lower item') ".pdf"); [|destruct H].
      destruct H as [H|[]]. injection H as -> <- _.
      split; [exact Hs|]. now exists directory.
    + eapply IH; [exact He|exact H].
Qed.

(** X6. When the names in the tree are as [os.listdir] gives them (no
    slash in a name), the base name of the path of every loaded record is
    its file name: the reports, which show [os.path.basename] of the path,
    show the name under which the file was found. *)
Theorem load_papers_basename (service : Type) (fs : folder)
  (paper_dir : string) (s : state service) :
  listed_names fs = true ->
  Forall (fun p => os_path_basename (filepath p) = filename p)
         (papers (snd (load_papers fs paper_dir s))).
Proof.
  intros Hn. rewrite load_papers_run. cbn [snd papers].
  rewrite visit_papers_records, List.Forall_forall. intros p Hp.
  apply list_elem_of_In, list_elem_of_omap in Hp as ([[item path] doc] & Hf & Hr).
  apply record_of_fields in Hr as (-> & -> & _). cbn [fst snd].
  apply list_elem_of_omap in Hf as ([i ip dc|dr e] & Hv & Hf); [|discriminate].
  injection Hf as -> -> ->.
  apply list_elem_of_In in Hv.
  destruct (walk_found_path _ _ _ _ _ Hn Hv) as (Hs & parent & ->).
  now apply basename_join.
Qed.

Lemma load_papers_basename_witness :
  Forall (fun p => os_path_basename (filepath p) = filename p)
         (papers (snd (load_papers papers_tree "papers" idle))).
Proof.
  exact (load_papers_basename unit papers_tree "papers" idle eq_refl).
Defined.

(** ** Evaluation: requests, pacing, and what ranking sees afterwards *)

Lemma substring_prefix n : forall c,
  String.length (substring 0 n c) = Nat.min n (String.length c)
  /\ exists rest, c = substring 0 n c ++ rest.
Proof.
  induction n as [|n IH]; intros c.
  - destruct c; simpl; split; try reflexivity; eexists; reflexivity.
  - destruct c as [|a c]; [split; [reflexivity|now exists ""]|].
    destruct (IH c) as (Hl & rest & Hr). cbn [substring String.length].
    split; [now rewrite Hl|].
    exists rest.
    change (String a c = String a (substring 0 n c ++ rest)).
    now rewrite <- Hr.
Qed.

(** X9. The text of a paper sent to the Judge is a prefix of its content of
    at most 7000 characters: the whole content when it is shorter. *)
Theorem excerpt_bounded (c : string) :
  Z.of_nat (String.length (excerpt c))
  = Z.min 7000 (Z.of_nat (String.length c))
  /\ exists rest, c = excerpt c ++ rest.
Proof.
  unfold excerpt.
  destruct (substring_prefix (Z.to_nat 7000) c) as (Hl & Hr).
  split; [|exact Hr]. rewrite Hl. lia.
Qed.

Section Evaluation_further.

Variable service : Type.
Variable create : service -> string -> string -> outcome string * service.
Variable json_loads : string -> outcome json.
Implicit Type s : state service.

Lemma loop_events_request_list ps : forall rs total i,
  length rs = length ps ->
  List.filter is_request (loop_events total i ps rs) = map request_of ps.
Proof.
  induction ps as [|p ps IH]; intros [|r rs] total i Hl; try discriminate;
    [reflexivity|].
  cbn [loop_events paper_events app List.filter is_request map].
  unfold request_of at 1. f_equal.
  destruct r as [a|e]; cbn [app List.filter is_request];
    (apply IH; simpl in Hl; lia).
Qed.

(** X8. [analyze_papers] makes exactly one request per record, in the
    order of the list, each with the same rubric text and the excerpt of
    that record's content; a failed request is not repeated. *)
Theorem analyze_papers_requests s :
  exists b s' evs,
    analyze_papers create json_loads s = (Ok b, s')
    /\ trace s' = (trace s ++ evs)%list
    /\ List.filter is_request evs = map request_of (papers s).
Proof.
  rewrite analyze_papers_run.
  destruct (papers s) as [|p0 ps] eqn:Hs.
  - do 3 eexists. split; [reflexivity|]. split; reflexivity.
  - do 3 eexists. split; [reflexivity|]. split; [reflexivity|].
    cbn [List.filter is_request].
    apply loop_events_request_list, verdicts_length.
Qed.

Lemma loop_events_delays ps : forall rs total i,
  length rs = length ps ->
  List.filter is_delay (loop_events total i ps rs)
  = repeat (ESleep half_second) (length (List.filter is_ok rs)).
Proof.
  induction ps as [|p ps IH]; intros [|r rs] total i Hl; try discriminate;
    [reflexivity|].
  cbn [loop_events paper_events app List.filter is_delay].
  destruct r as [a|e]; cbn [app List.filter is_delay is_ok length repeat].
  - f_equal. apply IH. simpl in Hl. lia.
  - apply IH. simpl in Hl. lia.
Qed.

(** X10. The delays of a run are as many as its Judge calls that
    succeeded, each of half a time unit: a failed call adds no delay. *)
Theorem analyze_papers_delays s :
  exists b s' evs,
    analyze_papers create json_loads s = (Ok b, s')
    /\ trace s' = (trace s ++ evs)%list
    /\ List.filter is_delay evs
       = repeat (ESleep half_second)
           (length (List.filter is_ok
                      (verdicts create json_loads (client s) (papers s)))).
Proof.
  rewrite analyze_papers_run.
  destruct (papers s) as [|p0 ps] eqn:Hs.
  - do 3 eexists. split; [reflexivity|]. split; reflexivity.
  - do 3 eexists. split; [reflexivity|]. split; [reflexivity|].
    cbn [List.filter is_delay].
    apply loop_events_delays, verdicts_length.
Qed.

Lemma verdicts_content ps : forall qs c,
  map content ps = map content qs ->
  verdicts create json_loads c ps = verdicts create json_loads c qs.
Proof.
  induction ps as [|p ps IH]; intros [|q qs] c H; try discriminate;
    [reflexivity|].
  injection H as Hc Hrest. cbn [verdicts]. unfold judge. rewrite Hc.
  destruct (create c slr_prompt (user_content (content q))) as [r c'].
  now rewrite (IH qs c' Hrest).
Qed.

(** X11. The judgments [analyze_papers] stores do not depend on the
    judgments the records carried before: two record lists that differ
    only in their ['scores'] slots end, from the same state of the Judge,
    as the same list.  Running the evaluation again replaces every
    judgment. *)
Theorem analyze_papers_overwrites s1 s2 :
  client s1 = client s2 ->
  Forall2 (fun p q => q = set_scores p (scores q)) (papers s1) (papers s2) ->
  papers (snd (analyze_papers create json_loads s1))
  = papers (snd (analyze_papers create json_loads s2)).
Proof.
  intros Hc HF. rewrite !analyze_papers_run.
  assert (Hcontent : map content (papers s1) = map content (papers s2)).
  { induction HF as [|p q ps qs Hq _ IH]; [reflexivity|].
    simpl. rewrite IH. f_equal. now rewrite Hq. }
  assert (Hj : judged_papers create json_loads (client s1) (papers s1)
               = judged_papers create json_loads (client s2) (papers s2)).
  { unfold judged_papers. rewrite Hc, (verdicts_content _ _ _ Hcontent).
    generalize (verdicts create json_loads (client s2) (papers s2)) as rs.
    induction HF as [|p q ps qs Hq _ IH]; intros rs; [reflexivity|].
    destruct rs as [|r rs]; [reflexivity|]. cbn [zip_with].
    rewrite IH.
    - f_equal. rewrite Hq. reflexivity.
    - simpl in Hcontent. now injection Hcontent. }
  destruct HF as [|p q ps qs Hq HF]; [reflexivity|].
  cbn [snd papers]. exact Hj.
Qed.

Lemma judged_papers_elem c ps p :
  In p (judged_papers create json_loads c ps) ->
  exists i q r,
    ps !! i = Some q
    /\ verdicts create json_loads c ps !! i = Some r
    /\ p = set_scores q (judgment r).
Proof.
  intros H. apply list_elem_of_In, list_elem_of_lookup in H as [i Hi].
  unfold judged_papers in Hi.
  apply lookup_zip_with_Some in Hi as (q & r & -> & Hq & Hr).
  now exists i, q, r.
Qed.

Lemma conforming_judged q r :
  conforming r = true -> judged (set_scores q (judgment r)) = true.
Proof.
  destruct r as [[| | | | |kvs]|e]; try discriminate;
    intros H; [exact H|reflexivity].
Qed.

Lemma judged_papers_judged c ps :
  forallb conforming (verdicts create json_loads c ps) = true ->
  forallb judged (judged_papers create json_loads c ps) = true.
Proof.
  intros H. rewrite forallb_forall in H |- *. intros p Hp.
  apply judged_papers_elem in Hp as (i & q & r & _ & Hr & ->).
  apply conforming_judged, H.
  apply list_elem_of_In, list_elem_of_lookup. now exists i.
Qed.

Lemma error_scores_excluded q e :
  meets_inclusion_criteria (set_scores q (error_scores e)) = false.
Proof. reflexivity. Qed.

Lemma analyze_papers_papers s :
  exists b s',
    analyze_papers create json_loads s = (Ok b, s')
    /\ papers s' = judged_papers create json_loads (client s) (papers s).
Proof.
  rewrite analyze_papers_run.
  destruct (papers s) as [|p0 ps] eqn:Hs; do 2 eexists; split; reflexivity.
Qed.

(** X12. When every answer of the Judge that parses has the two ranking
    fields with their types, ranking the evaluated records does not raise;
    every ranked record carries the answer of a call that succeeded and
    says the paper meets the inclusion criteria; and no record whose call
    failed is ranked. *)
Theorem rank_papers_after_analysis s :
  forallb conforming (verdicts create json_loads (client s) (papers s)) = true ->
  exists b s' ranked,
    analyze_papers create json_loads s = (Ok b, s')
    /\ rank_papers (papers s') = Ok ranked
    /\ Permutation ranked (List.filter meets_inclusion_criteria (papers s'))
    /\ (forall p, In p ranked ->
          exists i q a,
            papers s !! i = Some q
            /\ verdicts create json_loads (client s) (papers s) !! i
               = Some (Ok a)
            /\ p = set_scores q a
            /\ meets_inclusion_criteria p = true)
    /\ (forall i q e,
          papers s !! i = Some q ->
          verdicts create json_loads (client s) (papers s) !! i
          = Some (Raise e) ->
          ~ In (set_scores q (error_scores e)) ranked).
Proof.
  intros Hc. destruct (analyze_papers_papers s) as (b & s' & Hrun & Hp).
  destruct (rank_papers_permutation (papers s')) as (ranked & Hr & Hperm).
  { rewrite Hp. now apply judged_papers_judged. }
  exists b, s', ranked. split; [exact Hrun|]. split; [exact Hr|].
  split; [exact Hperm|]. split.
  - intros p Hin. apply (Permutation_in _ Hperm) in Hin.
    apply filter_In in Hin as [Hin Hm]. rewrite Hp in Hin.
    apply judged_papers_elem in Hin as (i & q & r & Hq & Hv & ->).
    destruct r as [a|e].
    + now exists i, q, a.
    + cbn [judgment] in Hm. now rewrite error_scores_excluded in Hm.
  - intros i q e _ _ Hin. apply (Permutation_in _ Hperm) in Hin.
    apply filter_In in Hin as [_ Hm].
    now rewrite error_scores_excluded in Hm.
Qed.

Lemma filter_none {A} (f : A -> bool) (l : list A) :
  (forall x, In x l -> f x = false) -> List.filter f l = [].
Proof.
  induction l as [|x l IH]; intros H; [reflexivity|].
  simpl. rewrite (H x) by now left. apply IH. intros y Hy. apply H. now right.
Qed.

Lemma failure_conforming (rs : list (outcome json)) :
  forallb is_failure rs = true -> forallb conforming rs = true.
Proof.
  induction rs as [|[a|e] rs IH]; [reflexivity|discriminate|exact IH].
Qed.

(** X13. When every Judge call of the batch fails, the batch still
    completes, and afterwards nothing is ranked, [visualize_results]
    returns before drawing and [generate_detailed_review] returns before
    writing. *)
Theorem analyze_papers_all_failed s (top_n : Z) :
  forallb is_failure (verdicts create json_loads (client s) (papers s)) = true ->
  exists b s',
    analyze_papers create json_loads s = (Ok b, s')
    /\ rank_papers (papers s') = Ok []
    /\ visualize_results_bars (papers s') top_n = Ok None
    /\ generate_detailed_review_summary (papers s') = Ok None.
Proof.
  intros Hf. destruct (analyze_papers_papers s) as (b & s' & Hrun & Hp).
  exists b, s'. split; [exact Hrun|].
  assert (Hj : forallb judged (papers s') = true).
  { rewrite Hp. now apply judged_papers_judged, failure_conforming. }
  assert (Hn : List.filter meets_inclusion_criteria (papers s') = []).
  { apply filter_none. intros p Hin. rewrite Hp in Hin.
    apply judged_papers_elem in Hin as (i & q & r & _ & Hv & ->).
    rewrite forallb_forall in Hf.
    assert (Hr : is_failure r = true).
    { apply Hf, list_elem_of_In, list_elem_of_lookup. now exists i. }
    destruct r as [a|e]; [discriminate|]. apply error_scores_excluded. }
  assert (Hr : rank_papers (papers s') = Ok []).
  { rewrite (rank_papers_judged _ Hj). now rewrite Hn. }
  split; [exact Hr|]. split.
  - unfold visualize_results_bars.
    rewrite (filter_outcome_judged _ Hj). now rewrite Hn.
  - unfold generate_detailed_review_summary. now rewrite Hr.
Qed.

End Evaluation_further.

(** ** Ranking at its edges *)

Lemma filter_outcome_raises {A} (f : A -> outcome bool) (l : list A) :
  (exists x, In x l /\ is_ok (f x) = false) ->
  exists x e, In x l /\ f x = Raise e /\ filter_outcome f l = Raise e.
Proof.
  induction l as [|y l IH]; intros (x & Hin & Hx); [destruct Hin|].
  cbn [filter_outcome]. destruct (f y) as [b|e] eqn:Hy.
  - destruct Hin as [->|Hin]; [rewrite Hy in Hx; discriminate|].
    destruct IH as (x' & e & Hin' & Hfx & Hf); [now exists x|].
    exists x', e. split; [now right|]. split; [exact Hfx|].
    cbn [obind]. now rewrite Hf.
  - exists y, e. split; [now left|]. now split.
Qed.

(** X14. A judgment that is not a dict makes [rank_papers] raise: when some
    record's ['scores'] slot holds a list, a string, a number, a boolean or
    null, the result is the AttributeError of the missing [get], for one of
    these records. *)
Theorem rank_papers_needs_dicts (ps : list paper) (p : paper) :
  In p ps ->
  is_dict (scores p) = false ->
  exists q,
    In q ps /\ is_dict (scores q) = false
    /\ rank_papers ps
       = Raise ("'" ++ type_name (scores q) ++ "' object has no attribute 'get'").
Proof.
  intros Hin Hd. unfold rank_papers.
  destruct (filter_outcome_raises
              (fun p => obind (dict_get (scores p) "meets_inclusion_criteria"
                                 (JBool false)) (fun v => Ok (truthy v))) ps)
    as (q & e & Hq & Hfq & Hf).
  { exists p. split; [exact Hin|]. now destruct (scores p). }
  exists q. split; [exact Hq|]. rewrite Hf. cbn [obind].
  destruct (scores q); try discriminate; simpl in Hfq;
    injection Hfq as <-; split; reflexivity.
Qed.

Lemma rank_papers_needs_dicts_any (ps : list paper) (p : paper) :
  In p ps -> is_dict (scores p) = false -> exists e, rank_papers ps = Raise e.
Proof.
  intros Hin Hd. unfold rank_papers.
  destruct (filter_outcome_raises
              (fun p => obind (dict_get (scores p) "meets_inclusion_criteria"
                                 (JBool false)) (fun v => Ok (truthy v))) ps)
    as (q & e & Hq & Hfq & Hf).
  { exists p. split; [exact Hin|]. now destruct (scores p). }
  exists e. now rewrite Hf.
Qed.

Lemma rank_papers_needs_dicts_witness :
  exists q,
    In q [paper_A; set_scores paper_B (JArr [])]
    /\ is_dict (scores q) = false
    /\ rank_papers [paper_A; set_scores paper_B (JArr [])]
       = Raise ("'" ++ type_name (scores q) ++ "' object has no attribute 'get'").
Proof.
  apply (rank_papers_needs_dicts _ (set_scores paper_B (JArr []))).
  - right. left. reflexivity.
  - reflexivity.
Defined.

Lemma py_lt_as_int a b m n :
  as_int a = Some m -> as_int b = Some n -> py_lt a b = Ok (m <? n).
Proof. intros Ha Hb. unfold py_lt. now rewrite Ha, Hb. Qed.

Lemma insert_key_ints {A} (kj : A -> json) (kz : A -> Z) x l :
  (forall y, In y (x :: l) -> as_int (kj y) = Some (kz y)) ->
  insert_key (kj x, x) (map (fun a => (kj a, a)) l)
  = Ok (map (fun a => (kj a, a)) (insert_by kz x l)).
Proof.
  induction l as [|y l IH]; intros H; [reflexivity|].
  cbn [map insert_key insert_by fst].
  rewrite (py_lt_as_int _ _ (kz y) (kz x)).
  - cbn [obind]. destruct (kz y <? kz x); [|reflexivity].
    rewrite IH; [reflexivity|].
    intros z [<-|Hz]; apply H; [now left|now right; right].
  - apply H. now right; left.
  - apply H. now left.
Qed.

Lemma sort_keys_ints {A} (kj : A -> json) (kz : A -> Z) l :
  (forall y, In y l -> as_int (kj y) = Some (kz y)) ->
  sort_keys (map (fun a => (kj a, a)) l)
  = Ok (map (fun a => (kj a, a)) (sort_by kz l)).
Proof.
  induction l as [|x l IH]; intros H; [reflexivity|].
  cbn [map sort_keys sort_by]. rewrite IH by (intros y Hy; apply H; now right).
  cbn [obind]. apply insert_key_ints.
  intros y [<-|Hy]; apply H; [now left|right].
  now apply (Permutation_in _ (sort_by_perm kz l)).
Qed.

Lemma map_outcome_total {A B} (f : A -> outcome B) (g : A -> B) l :
  (forall x, In x l -> f x = Ok (g x)) -> map_outcome f l = Ok (map g l).
Proof.
  induction l as [|x l IH]; intros H; [reflexivity|].
  cbn [map_outcome map]. rewrite (H x) by now left. cbn [obind].
  rewrite IH by (intros y Hy; apply H; now right). reflexivity.
Qed.

Lemma filter_outcome_total {A} (f : A -> outcome bool) (g : A -> bool) l :
  (forall x, In x l -> f x = Ok (g x)) ->
  filter_outcome f l = Ok (List.filter g l).
Proof.
  induction l as [|x l IH]; intros H; [reflexivity|].
  cbn [filter_outcome List.filter]. rewrite (H x) by now left. cbn [obind].
  rewrite IH by (intros y Hy; apply H; now right). reflexivity.
Qed.

(** [sorted] with integer keys never raises. *)
Lemma sorted_ints {A} (key : A -> outcome json) (kz : A -> Z) l :
  (forall x, In x l -> exists v, key x = Ok v /\ as_int v = Some (kz x)) ->
  sorted l key true = Ok (rev (sort_by kz (rev l))).
Proof.
  intros H. unfold sorted.
  set (kj := fun x => match key x with Ok v => v | Raise _ => JNull end).
  rewrite (map_outcome_total _ (fun x => (kj x, x))).
  - cbn [obind]. rewrite <- map_rev.
    rewrite (sort_keys_ints kj kz).
    + cbn [obind]. rewrite <- map_rev, map_map. cbn [snd].
      now rewrite map_id.
    + intros y Hy. apply in_rev in Hy. destruct (H y Hy) as (v & Hv & Hi).
      unfold kj. now rewrite Hv.
  - intros x Hx. destruct (H x Hx) as (v & Hv & _). unfold kj.
    now rewrite Hv.
Qed.

Lemma rankable_included p :
  rankable p = true ->
  obind (dict_get (scores p) "meets_inclusion_criteria" (JBool false))
        (fun v => Ok (truthy v)) = Ok (truthy (inclusion_value p)).
Proof.
  unfold rankable, inclusion_value, field, dict_get.
  destruct (scores p) as [| | | | |kvs]; try discriminate. intros _.
  now destruct (assoc "meets_inclusion_criteria" kvs).
Qed.

Lemma rankable_key p :
  rankable p = true ->
  exists v, dict_get (scores p) "overall_score" (JNum 0) = Ok v
            /\ as_int v = Some (int_score p).
Proof.
  unfold rankable, int_score, score_value, field, dict_get.
  destruct (scores p) as [| | | | |kvs]; try discriminate.
  destruct (assoc "overall_score" kvs) as [v|].
  - destruct (as_int v) eqn:E; [|discriminate]. intros _. now exists v.
  - intros _. now exists (JNum 0).
Qed.

Lemma rank_papers_rankable ps :
  forallb rankable ps = true ->
  rank_papers ps
  = Ok (rev (sort_by int_score
               (rev (List.filter (fun p => truthy (inclusion_value p)) ps)))).
Proof.
  intros H. rewrite forallb_forall in H. unfold rank_papers.
  rewrite (filter_outcome_total _ (fun p => truthy (inclusion_value p)))
    by (intros p Hp; apply rankable_included, H, Hp).
  cbn [obind]. apply sorted_ints.
  intros p Hp. apply filter_In in Hp as [Hp _]. apply rankable_key, H, Hp.
Qed.

(** X15. Inclusion is decided by the truth value of
    [meets_inclusion_criteria], and a boolean score counts as 0 or 1: on
    records whose judgment is a dict with a numeric or boolean score,
    [rank_papers] returns the records whose inclusion value is true in
    Python's sense (true, a non-zero number, a non-empty string, list or
    dict), in descending order of score and stably. *)
Theorem rank_papers_truth_value (ps : list paper) :
  forallb rankable ps = true ->
  exists ranked,
    rank_papers ps = Ok ranked
    /\ Permutation ranked
         (List.filter (fun p => truthy (inclusion_value p)) ps)
    /\ StronglySorted (fun a b => int_score b <= int_score a) ranked
    /\ forall n,
         List.filter (fun p => int_score p =? n) ranked
         = List.filter (fun p => int_score p =? n)
             (List.filter (fun p => truthy (inclusion_value p)) ps).
Proof.
  intros H. eexists. split; [apply (rank_papers_rankable ps H)|].
  split; [|split].
  - rewrite <- Permutation_rev, sort_by_perm, <- Permutation_rev. reflexivity.
  - apply (StronglySorted_rev (fun a b => int_score a <= int_score b)).
    apply sort_by_sorted.
  - intros n. rewrite filter_rev, sort_by_stable, filter_rev.
    apply rev_involutive.
Qed.

Lemma rank_papers_truth_value_witness :
  forallb rankable [paper_said_false; paper_A] = true
  /\ exists ranked,
       rank_papers [paper_said_false; paper_A] = Ok ranked
       /\ In paper_said_false ranked.
Proof.
  split; [reflexivity|].
  destruct (rank_papers_truth_value [paper_said_false; paper_A] eq_refl)
    as (ranked & Hr & Hperm & _).
  exists ranked. split; [exact Hr|].
  apply (Permutation_in _ (Permutation_sym Hperm)). left. reflexivity.
Defined.

(** X16. A Judge answer that is valid JSON but not an object is stored as
    the judgment like any other, and ranking the evaluated records then
    raises the AttributeError of the missing [get]. *)
Theorem rank_papers_after_non_object_answer (service : Type)
  (create : service -> string -> string -> outcome string * service)
  (json_loads : string -> outcome json) (s : state service)
  (i : nat) (a : json) :
  verdicts create json_loads (client s) (papers s) !! i = Some (Ok a) ->
  is_dict a = false ->
  exists b s' e,
    analyze_papers create json_loads s = (Ok b, s')
    /\ rank_papers (papers s') = Raise e.
Proof.
  intros Hv Hd.
  destruct (analyze_papers_papers service create json_loads s)
    as (b & s' & Hrun & Hp).
  assert (Hlt : (i < length (papers s))%nat).
  { apply lookup_lt_Some in Hv. now rewrite verdicts_length in Hv. }
  destruct (lookup_lt_is_Some_2 _ _ Hlt) as [q Hq].
  destruct (judged_papers_lookup service create json_loads (client s) _ _ _ Hq)
    as (r & Hr & Hj).
  rewrite Hv in Hr. injection Hr as <-. cbn [judgment] in Hj.
  destruct (rank_papers_needs_dicts_any (papers s') (set_scores q a))
    as (e & He).
  - rewrite Hp. apply list_elem_of_In, list_elem_of_lookup. now exists i.
  - exact Hd.
  - now exists b, s', e.
Qed.

Lemma rank_papers_after_non_object_answer_witness :
  exists b s' e,
    analyze_papers list_create loads_list two_loaded = (Ok b, s')
    /\ rank_papers (papers s') = Raise e.
Proof.
  apply (rank_papers_after_non_object_answer nat list_create loads_list
           two_loaded 0%nat (JArr [])); reflexivity.
Defined.

Lemma sort_by_sorted_id {A} (k : A -> Z) l :
  StronglySorted (fun a b => k a <= k b) l -> sort_by k l = l.
Proof.
  induction 1 as [|x l Hl IH Hx]; [reflexivity|].
  cbn [sort_by]. rewrite IH. destruct l as [|y l]; [reflexivity|].
  cbn [insert_by]. apply Forall_inv in Hx.
  destruct (Z.ltb_spec (k y) (k x)); [lia|reflexivity].
Qed.

Lemma filter_all {A} (f : A -> bool) (l : list A) :
  (forall x, In x l -> f x = true) -> List.filter f l = l.
Proof.
  induction l as [|x l IH]; intros H; [reflexivity|].
  simpl. rewrite (H x) by now left. f_equal. apply IH.
  intros y Hy. apply H. now right.
Qed.

(** X17. Ranking is idempotent: ranking the list [rank_papers] returned
    gives that list again, in the same order. *)
Theorem rank_papers_idempotent (ps ranked : list paper) :
  forallb judged ps = true ->
  rank_papers ps = Ok ranked ->
  rank_papers ranked = Ok ranked.
Proof.
  intros Hj Hr. rewrite (rank_papers_judged ps Hj) in Hr.
  injection Hr as Hr.
  assert (Hperm : Permutation ranked
                    (List.filter meets_inclusion_criteria ps)).
  { rewrite <- Hr, <- Permutation_rev, sort_by_perm, <- Permutation_rev.
    reflexivity. }
  assert (Hin : forall p, In p ranked ->
                          In p ps /\ meets_inclusion_criteria p = true).
  { intros p Hp. apply (Permutation_in _ Hperm) in Hp.
    now apply filter_In in Hp. }
  rewrite rank_papers_judged.
  - rewrite (filter_all _ ranked) by (intros p Hp; now apply Hin).
    rewrite <- Hr at 1. rewrite rev_involutive.
    rewrite sort_by_sorted_id by apply sort_by_sorted.
    exact (f_equal Ok Hr).
  - rewrite forallb_forall in Hj |- *. intros p Hp. now apply Hj, Hin.
Qed.

Lemma rank_papers_idempotent_witness :
  rank_papers [paper_B; paper_C; paper_A] = Ok [paper_B; paper_C; paper_A].
Proof.
  apply (rank_papers_idempotent [paper_A; paper_B; paper_C]); reflexivity.
Defined.

(** ** The ranking chart *)

Lemma short_name_length name : (String.length (short_name name) <= 28)%nat.
Proof.
  unfold short_name. destruct (Nat.ltb_spec 25 (String.length name)) as [H|H].
  - rewrite length_append.
    destruct (substring_prefix 25 name) as [Hl _]. rewrite Hl.
    cbn [String.length]. lia.
  - lia.
Qed.

Lemma slice_to_prefix {A} (n : Z) (l : list A) :
  exists rest, l = (slice_to n l ++ rest)%list
    /\ Z.of_nat (length (slice_to n l))
       = if 0 <=? n then Z.min n (Z.of_nat (length l))
         else Z.max 0 (Z.of_nat (length l) + n).
Proof.
  unfold slice_to. destruct (Z.leb_spec 0 n).
  - exists (drop (Z.to_nat n) l). split; [now rewrite take_drop|].
    rewrite length_take. lia.
  - exists (drop (length l - Z.to_nat (- n)) l).
    split; [now rewrite take_drop|]. rewrite length_take. lia.
Qed.

Lemma sorted_split {A} (R : A -> A -> Prop) (l1 l2 : list A) :
  StronglySorted R (l1 ++ l2) ->
  forall x y, In x l1 -> In y l2 -> R x y.
Proof.
  intros H x y Hx Hy.
  apply StronglySorted_app in H as (H & _ & _).
  apply H; now apply list_elem_of_In.
Qed.

(** X18. When at least one paper is included, the bars of the ranking
    chart are the first papers of the ranking: [top_n] of them when
    [top_n] is not negative, all but the last [-top_n] otherwise.  There is
    one label per value, a label has at most 28 characters, and no paper
    left out of the chart has a higher score than a paper in it. *)
Theorem visualize_results_top (ps : list paper) (top_n : Z) :
  forallb judged ps = true ->
  List.filter meets_inclusion_criteria ps <> [] ->
  exists ranked shown rest,
    rank_papers ps = Ok ranked
    /\ ranked = (shown ++ rest)%list
    /\ Z.of_nat (length shown)
       = (if 0 <=? top_n then Z.min top_n (Z.of_nat (length ranked))
          else Z.max 0 (Z.of_nat (length ranked) + top_n))
    /\ visualize_results_bars ps top_n
       = Ok (Some (map (fun p => short_name (os_path_basename (filepath p)))
                       shown,
                   map (fun p => JNum (overall_score p)) shown))
    /\ Forall (fun p => (String.length
                           (short_name (os_path_basename (filepath p)))
                         <= 28)%nat) shown
    /\ forall p q, In p shown -> In q rest ->
                   overall_score q <= overall_score p.
Proof.
  intros Hj Hne.
  pose proof (rank_papers_judged ps Hj) as Hr.
  set (ranked := rev (sort_by overall_score
                        (rev (List.filter meets_inclusion_criteria ps)))) in *.
  destruct (slice_to_prefix top_n ranked) as (rest & Hsplit & Hlen).
  exists ranked, (slice_to top_n ranked), rest.
  split; [exact Hr|]. split; [exact Hsplit|]. split; [exact Hlen|].
  assert (Hsorted : StronglySorted
                      (fun a b => overall_score b <= overall_score a) ranked).
  { apply (StronglySorted_rev (fun a b => overall_score a <= overall_score b)).
    apply sort_by_sorted. }
  assert (Hin : forall p, In p ranked -> judged p = true).
  { intros p Hp. unfold ranked in Hp. apply in_rev in Hp.
    apply (Permutation_in _ (sort_by_perm _ _)) in Hp. apply in_rev in Hp.
    apply filter_In in Hp as [Hp _]. rewrite forallb_forall in Hj.
    now apply Hj. }
  split; [|split].
  - unfold visualize_results_bars.
    rewrite (filter_outcome_judged ps Hj).
    destruct (List.filter meets_inclusion_criteria ps) as [|p0 inc] eqn:Hf;
      [contradiction|].
    cbn [obind]. rewrite Hr. cbn [obind].
    rewrite (map_outcome_total _ (fun p => JNum (overall_score p))).
    + cbn [obind]. now rewrite map_map.
    + intros p Hp. apply judged_key, Hin.
      rewrite Hsplit. apply in_or_app. now left.
  - rewrite List.Forall_forall. intros p _. apply short_name_length.
  - intros p q Hp Hq. rewrite Hsplit in Hsorted.
    apply (sorted_split _ _ _ Hsorted p q Hp Hq).
Qed.

Lemma visualize_results_top_witness :
  exists ranked shown rest,
    rank_papers [paper_A; paper_B; paper_C] = Ok ranked
    /\ ranked = (shown ++ rest)%list
    /\ Z.of_nat (length shown) = 2
    /\ visualize_results_bars [paper_A; paper_B; paper_C] 2
       = Ok (Some (map (fun p => short_name (os_path_basename (filepath p)))
                       shown,
                   map (fun p => JNum (overall_score p)) shown)).
Proof.
  destruct (visualize_results_top [paper_A; paper_B; paper_C] 2 eq_refl)
    as (ranked & shown & rest & Hr & Hs & Hl & Hb & _).
  - discriminate.
  - exists ranked, shown, rest. split; [exact Hr|]. split; [exact Hs|].
    split; [|exact Hb]. rewrite Hl.
    assert (E : rank_papers [paper_A; paper_B; paper_C]
                = Ok [paper_B; paper_C; paper_A]) by reflexivity.
    rewrite E in Hr. injection Hr as <-. reflexivity.
Defined.

(** ** The summary of the detailed review *)

Lemma count_keys_run ks : forall d,
  forallb hashable ks = true ->
  exists counts,
    count_keys d ks = Ok counts
    /\ sum_values counts = sum_values d + Z.of_nat (length ks)
    /\ forall k, counts_get counts k 0 = counts_get d k 0 + occurrences k ks.
Proof.
  induction ks as [|x ks IH]; intros d H.
  - exists d. unfold occurrences. simpl. repeat split; intros; lia.
  - simpl in H. apply andb_true_iff in H as [Hx Hks].
    cbn [count_keys]. unfold count_key. rewrite Hx. cbn [obind].
    destruct (IH (counts_set d x (counts_get d x 0 + 1)) Hks)
      as (counts & Hrun & Hsum & Hget).
    exists counts. split; [exact Hrun|]. split.
    + rewrite Hsum, sum_values_incr. simpl length. lia.
    + intros k. rewrite Hget, counts_get_set.
      unfold occurrences. simpl List.filter.
      destruct (py_eq x k) eqn:E; simpl length.
      * rewrite (counts_get_compat d _ _ 0 E). lia.
      * lia.
Qed.

Lemma count_keys_app a : forall d b,
  count_keys d (a ++ b) = obind (count_keys d a) (fun c => count_keys c b).
Proof.
  induction a as [|x a IH]; intros d b; [reflexivity|].
  cbn [app count_keys]. destruct (count_key d x) as [c|e]; [|reflexivity].
  cbn [obind]. apply IH.
Qed.

Lemma lists_keys_get key p :
  lists_keys key p = true ->
  obind (dict_get (scores p) key (JArr [])) py_iter = Ok (listed key p)
  /\ forallb hashable (listed key p) = true.
Proof.
  unfold lists_keys, listed, field, dict_get.
  destruct (scores p) as [| | | | |kvs]; try discriminate.
  destruct (assoc key kvs) as [[| | | |xs|]|]; try discriminate;
    intros H; split; try reflexivity; exact H.
Qed.

Lemma count_techniques_keys ps : forall d,
  forallb (lists_keys "ai_techniques") ps = true ->
  count_techniques d ps
  = count_keys d (flat_map (listed "ai_techniques") ps)
  /\ forallb hashable (flat_map (listed "ai_techniques") ps) = true.
Proof.
  induction ps as [|p ps IH]; intros d H; [split; reflexivity|].
  simpl in H. apply andb_true_iff in H as [Hp Hps].
  destruct (lists_keys_get _ _ Hp) as [Hg Hh].
  cbn [count_techniques flat_map]. split.
  - rewrite count_keys_app.
    destruct (dict_get (scores p) "ai_techniques" (JArr [])) as [v|e];
      [|discriminate].
    cbn [obind] in Hg |- *. rewrite Hg. cbn [obind].
    destruct (count_keys d (listed "ai_techniques" p)) as [c|e];
      [|reflexivity].
    cbn [obind]. apply (IH c Hps).
  - rewrite forallb_app, Hh. apply (IH d Hps).
Qed.

(** X19. The technique counts are counts of mentions: when the included
    papers list their techniques (a list of values that can be dict keys,
    or nothing), the loop does not raise, the count of a technique is the
    number of times it occurs in the lists of all the papers together, a
    technique listed twice by one paper counting twice, and the counts sum
    to the total length of the lists. *)
Theorem count_techniques_mentions (ranked_papers : list paper) :
  forallb (lists_keys "ai_techniques") ranked_papers = true ->
  exists techniques,
    count_techniques [] ranked_papers = Ok techniques
    /\ sum_values techniques
       = Z.of_nat (length (flat_map (listed "ai_techniques") ranked_papers))
    /\ forall k,
         counts_get techniques k 0
         = occurrences k (flat_map (listed "ai_techniques") ranked_papers).
Proof.
  intros H. destruct (count_techniques_keys ranked_papers [] H) as [Hc Hh].
  destruct (count_keys_run _ [] Hh) as (t & Ht & Hsum & Hget).
  exists t. rewrite Hc. split; [exact Ht|]. split.
  - rewrite Hsum. reflexivity.
  - intros k. rewrite Hget. reflexivity.
Qed.

(** X20. The listing of a count dict never raises: it is a permutation of
    the entries, in descending order of count, entries of equal count in
    the order in which their keys were first counted. *)
Theorem by_count_sorted (counts : list (json * Z)) :
  exists listing,
    by_count counts = Ok listing
    /\ Permutation listing counts
    /\ StronglySorted (fun a b => snd b <= snd a) listing
    /\ forall n,
         List.filter (fun x => snd x =? n) listing
         = List.filter (fun x => snd x =? n) counts.
Proof.
  eexists. split.
  - unfold by_count. apply (sorted_ints _ snd).
    intros x _. now exists (JNum (snd x)).
  - split; [|split].
    + rewrite <- Permutation_rev, sort_by_perm, <- Permutation_rev.
      reflexivity.
    + apply (StronglySorted_rev (fun a b => snd a <= snd b)).
      apply sort_by_sorted.
    + intros n. rewrite filter_rev, sort_by_stable, filter_rev.
      apply rev_involutive.
Qed.

Lemma by_count_run (counts : list (json * Z)) :
  by_count counts = Ok (rev (sort_by snd (rev counts))).
Proof.
  unfold by_count. apply (sorted_ints _ snd).
  intros x _. now exists (JNum (snd x)).
Qed.

Lemma sum_values_perm (a b : list (json * Z)) :
  Permutation a b -> sum_values a = sum_values b.
Proof.
  unfold sum_values. induction 1; simpl; lia.
Qed.

Lemma by_count_listing (counts : list (json * Z)) :
  Permutation (rev (sort_by snd (rev counts))) counts
  /\ StronglySorted (fun a b => snd b <= snd a)
       (rev (sort_by snd (rev counts))).
Proof.
  split.
  - rewrite <- Permutation_rev, sort_by_perm, <- Permutation_rev. reflexivity.
  - apply (StronglySorted_rev (fun a b => snd a <= snd b)), sort_by_sorted.
Qed.

Lemma str_items_strings xs : forall i,
  forallb (fun x => match x with JStr _ => true | _ => false end) xs = true ->
  exists ss, str_items i xs = Ok ss.
Proof.
  induction xs as [|x xs IH]; intros i H; [now exists []|].
  simpl in H. apply andb_true_iff in H as [Hx Hxs].
  destruct x; try discriminate. cbn [str_items].
  destruct (IH (S i) Hxs) as [ss ->]. now eexists.
Qed.

Lemma strings_hashable xs :
  forallb (fun x => match x with JStr _ => true | _ => false end) xs = true ->
  forallb hashable xs = true.
Proof.
  induction xs as [|x xs IH]; [reflexivity|].
  simpl. intros H. apply andb_true_iff in H as [Hx Hxs].
  rewrite (IH Hxs). now destruct x.
Qed.

Lemma review_ready_parts p :
  review_ready p = true ->
  countable_domain p = true
  /\ lists_keys "ai_techniques" p = true
  /\ lists_keys "challenges_identified" p = true
  /\ review_section p = Ok tt.
Proof.
  unfold review_ready, countable_domain, lists_keys, review_section.
  destruct (scores p) as [| | | | |kvs] eqn:Hs; try discriminate.
  intros H. apply andb_true_iff in H as [H Hf].
  apply andb_true_iff in H as [H Hc]. apply andb_true_iff in H as [Hd Ht].
  split; [exact Hd|]. cbn [dict_get obind].
  destruct (assoc "ai_techniques" kvs) as [v|] eqn:Ea.
  - destruct v as [| | | |xs|]; try discriminate. cbn [string_list] in Ht.
    split; [now apply strings_hashable|].
    destruct (str_items_strings xs 0%nat Ht) as [ss Hss].
    cbn [py_join py_iter obind]. rewrite Hss. cbn [obind].
    destruct (assoc "challenges_identified" kvs) as [[| | | |cs|]|];
      try discriminate; (split; [exact Hc|]);
      destruct (assoc "success_factors" kvs) as [[| | | |fs|]|];
      try discriminate; cbn [truthy py_iter obind];
      try reflexivity; try (now destruct cs); try (now destruct fs);
      destruct cs, fs; reflexivity.
  - split; [reflexivity|].
    cbn [py_join py_iter str_items obind].
    destruct (assoc "challenges_identified" kvs) as [[| | | |cs|]|];
      try discriminate; (split; [exact Hc|]);
      destruct (assoc "success_factors" kvs) as [[| | | |fs|]|];
      try discriminate; cbn [truthy py_iter obind];
      try reflexivity; try (now destruct cs); try (now destruct fs);
      destruct cs, fs; reflexivity.
Qed.

Lemma all_challenges_run ps : forall acc,
  forallb (lists_keys "challenges_identified") ps = true ->
  all_challenges acc ps
  = Ok (acc ++ flat_map (listed "challenges_identified") ps)%list
  /\ forallb hashable (flat_map (listed "challenges_identified") ps) = true.
Proof.
  induction ps as [|p ps IH]; intros acc H.
  - split; [|reflexivity]. simpl. now rewrite app_nil_r.
  - simpl in H. apply andb_true_iff in H as [Hp Hps].
    destruct (lists_keys_get _ _ Hp) as [Hg Hh].
    cbn [all_challenges flat_map]. split.
    + destruct (dict_get (scores p) "challenges_identified" (JArr []))
        as [v|e]; [|discriminate].
      cbn [obind] in Hg |- *. rewrite Hg. cbn [obind].
      rewrite (proj1 (IH _ Hps)). now rewrite app_assoc.
    + rewrite forallb_app, Hh. apply (IH acc Hps).
Qed.

(** X21. On judged records whose included papers have the fields the review
    reads in the shape the rubric asks for, and at least one included
    paper, [generate_detailed_review] reaches the end of its summary
    without raising.  Its three listings are the count dicts of the
    domains, of the techniques and of the challenges of the ranked papers,
    each listed by descending count.  The domain counts account for every
    included paper once, the technique counts for every mention, the
    challenge counts for every challenge mentioned.  The challenge lines
    written are the first ten entries of the challenge listing (all of them
    when there are fewer), so no challenge left out has a higher count
    than one written. *)
Theorem generate_detailed_review_summary_total (ps : list paper) :
  forallb judged ps = true ->
  forallb review_ready (List.filter meets_inclusion_criteria ps) = true ->
  List.filter meets_inclusion_criteria ps <> [] ->
  exists ranked summary domains techniques challenges listing,
    rank_papers ps = Ok ranked
    /\ generate_detailed_review_summary ps = Ok (Some summary)
    /\ count_domains [] ranked = Ok domains
    /\ by_count domains = Ok (domain_lines summary)
    /\ sum_values domains = Z.of_nat (length ranked)
    /\ count_techniques [] ranked = Ok techniques
    /\ by_count techniques = Ok (technique_lines summary)
    /\ sum_values techniques
       = Z.of_nat (length (flat_map (listed "ai_techniques") ranked))
    /\ all_challenges [] ranked
       = Ok (flat_map (listed "challenges_identified") ranked)
    /\ count_keys [] (flat_map (listed "challenges_identified") ranked)
       = Ok challenges
    /\ (forall k,
          counts_get challenges k 0
          = occurrences k (flat_map (listed "challenges_identified") ranked))
    /\ by_count challenges = Ok listing
    /\ Permutation listing challenges
    /\ StronglySorted (fun a b => snd b <= snd a) listing
    /\ challenge_lines summary = take 10 listing
    /\ forall a b, In a (take 10 listing) -> In b (drop 10 listing) ->
                   snd b <= snd a.
Proof.
  intros Hj Hready Hne.
  destruct (rank_papers_permutation ps Hj) as (ranked & Hr & Hperm).
  assert (Hall : forall p, In p ranked -> review_ready p = true).
  { intros p Hp. rewrite forallb_forall in Hready. apply Hready.
    now apply (Permutation_in _ Hperm). }
  assert (Hcd : forallb countable_domain ranked = true)
    by (apply forallb_forall; intros p Hp;
        now apply review_ready_parts, Hall).
  assert (Hat : forallb (lists_keys "ai_techniques") ranked = true)
    by (apply forallb_forall; intros p Hp;
        now apply review_ready_parts, Hall).
  assert (Hch : forallb (lists_keys "challenges_identified") ranked = true)
    by (apply forallb_forall; intros p Hp;
        now apply review_ready_parts, Hall).
  destruct (count_domains_run ranked [] Hcd) as (domains & Hd & Hdsum & _).
  destruct (count_techniques_keys ranked [] Hat) as [Ht Hth].
  destruct (count_keys_run _ [] Hth) as (techniques & Htk & Htsum & _).
  destruct (all_challenges_run ranked [] Hch) as [Hc Hchh].
  destruct (count_keys_run _ [] Hchh) as (challenges & Hck & _ & Hcget).
  destruct (by_count_listing challenges) as [Hcp Hcs].
  exists ranked,
    {| domain_lines := rev (sort_by snd (rev domains));
       technique_lines := rev (sort_by snd (rev techniques));
       challenge_lines := slice_to 10 (rev (sort_by snd (rev challenges))) |},
    domains, techniques, challenges, (rev (sort_by snd (rev challenges))).
  split; [exact Hr|]. cbn [domain_lines technique_lines challenge_lines].
  split.
  { unfold generate_detailed_review_summary. rewrite Hr. cbn [obind].
    destruct ranked as [|p0 ranked'] eqn:Hranked.
    { apply Permutation_nil in Hperm. now contradiction Hne. }
    rewrite <- Hranked in *.
    rewrite (map_outcome_total _ (fun _ => tt)).
    - cbn [obind]. rewrite Hd. cbn [obind]. rewrite by_count_run.
      cbn [obind]. rewrite Ht, Htk. cbn [obind]. rewrite by_count_run.
      cbn [obind]. rewrite Hc. cbn [obind app]. rewrite Hck. cbn [obind].
      rewrite by_count_run. reflexivity.
    - intros p Hp. apply review_ready_parts, Hall.
      destruct (slice_to_prefix 10 ranked) as (rest & Hs & _).
      rewrite Hs. apply in_or_app. now left. }
  split; [exact Hd|]. split; [apply by_count_run|].
  split; [rewrite Hdsum; reflexivity|].
  split; [now rewrite Ht|]. split; [apply by_count_run|].
  split; [rewrite Htsum; reflexivity|].
  split; [exact Hc|]. split; [exact Hck|].
  split; [intros k; rewrite Hcget; reflexivity|].
  split; [apply by_count_run|]. split; [exact Hcp|]. split; [exact Hcs|].
  split; [reflexivity|].
  intros a b Ha Hb.
  rewrite <- (take_drop 10 (rev (sort_by snd (rev challenges)))) in Hcs.
  apply (sorted_split _ _ _ Hcs a b Ha Hb).
Qed.

Lemma generate_detailed_review_summary_total_witness :
  exists summary,
    generate_detailed_review_summary [paper_F; paper_H] = Ok (Some summary)
    /\ domain_lines summary = [(JStr "Radiology", 1); (JStr "Unspecified", 1)]
    /\ technique_lines summary = [(JStr "CNN", 2); (JStr "SVM", 1)]
    /\ challenge_lines summary
       = [(JStr "c11", 2); (JStr "Data quality", 1); (JStr "c01", 1);
          (JStr "c02", 1); (JStr "c03", 1); (JStr "c04", 1); (JStr "c05", 1);
          (JStr "c06", 1); (JStr "c07", 1); (JStr "c08", 1)].
Proof.
  destruct (generate_detailed_review_summary_total [paper_F; paper_H]
              eq_refl eq_refl)
    as (ranked & summary & domains & techniques & challenges & listing
        & Hr & Hs & _).
  - discriminate.
  - assert (E : generate_detailed_review_summary [paper_F; paper_H]
                = Ok (Some
                        {| domain_lines :=
                             [(JStr "Radiology", 1); (JStr "Unspecified", 1)];
                           technique_lines :=
                             [(JStr "CNN", 2); (JStr "SVM", 1)];
                           challenge_lines :=
                             [(JStr "c11", 2); (JStr "Data quality", 1);
                              (JStr "c01", 1); (JStr "c02", 1);
                              (JStr "c03", 1); (JStr "c04", 1);
                              (JStr "c05", 1); (JStr "c06", 1);
                              (JStr "c07", 1); (JStr "c08", 1)] |}))
      by reflexivity.
    exists summary. split; [exact Hs|].
    rewrite E in Hs. injection Hs as <-.
    repeat split.
Defined.

Lemma count_techniques_mentions_witness :
  exists techniques,
    count_techniques [] [paper_F; paper_A] = Ok techniques
    /\ counts_get techniques (JStr "CNN") 0 = 2.
Proof.
  destruct (count_techniques_mentions [paper_F; paper_A] eq_refl)
    as (techniques & Hc & _ & Hget).
  exists techniques. split; [exact Hc|]. rewrite Hget. reflexivity.
Defined.

(** ** The rows of the report *)

Lemma str_items_ok_iff xs : forall i,
  is_ok (str_items i xs)
  = forallb (fun x => match x with JStr _ => true | _ => false end) xs.
Proof.
  induction xs as [|x xs IH]; intros i; [reflexivity|].
  destruct x; try reflexivity. cbn [str_items forallb andb].
  rewrite <- (IH (S i)). now destruct (str_items (S i) xs).
Qed.

Lemma str_items_chars s : forall i,
  str_items i (map JStr (chars s)) = Ok (chars s).
Proof.
  induction s as [|c s IH]; intros i; [reflexivity|].
  cbn [chars map str_items]. now rewrite IH.
Qed.

Lemma str_items_keys (kvs : list (string * json)) : forall i,
  str_items i (map (fun kv => JStr (fst kv)) kvs) = Ok (map fst kvs).
Proof.
  induction kvs as [|kv kvs IH]; intros i; [reflexivity|].
  cbn [map str_items]. now rewrite IH.
Qed.

Lemma py_join_ok_iff sep v : is_ok (py_join sep v) = joinable v.
Proof.
  destruct v as [| | |s|xs|kvs]; try reflexivity.
  - cbn [py_join py_iter obind]. now rewrite str_items_chars.
  - cbn [py_join py_iter obind joinable string_list].
    rewrite <- (str_items_ok_iff xs 0%nat). now destruct (str_items 0 xs).
  - cbn [py_join py_iter obind]. now rewrite str_items_keys.
Qed.

Lemma paper_data_ok_iff p : is_ok (paper_data p) = reportable p.
Proof.
  unfold paper_data, reportable.
  destruct (scores p) as [| | | | |kvs]; try reflexivity.
  cbn [dict_get obind].
  destruct (assoc "ai_techniques" kvs) as [v|].
  - rewrite <- (py_join_ok_iff ", " v). now destruct (py_join ", " v).
  - reflexivity.
Qed.

Lemma paper_data_fields p row :
  paper_data p = Ok row ->
  row_filename row = filename p
  /\ row_filepath row = filepath p
  /\ row_meets_inclusion row = inclusion_value p
  /\ row_overall_score row = score_value p
  /\ row_recommendation row = field_or "recommendation" (JStr "Unknown") p.
Proof.
  unfold paper_data, inclusion_value, score_value, field_or, field.
  destruct (scores p) as [| | | | |kvs]; try discriminate.
  cbn [dict_get obind].
  destruct (py_join ", " _) as [joined|e]; [|discriminate].
  cbn [obind]. intros [= <-]. cbn. repeat split.
Qed.

Lemma map_outcome_ok_iff {A B} (f : A -> outcome B) l :
  is_ok (map_outcome f l) = forallb (fun x => is_ok (f x)) l.
Proof.
  induction l as [|x l IH]; [reflexivity|].
  cbn [map_outcome forallb]. destruct (f x) as [y|e]; [|reflexivity].
  cbn [obind is_ok andb]. rewrite <- IH. now destruct (map_outcome f l).
Qed.

Lemma map_outcome_lookup {A B} (f : A -> outcome B) l : forall rows,
  map_outcome f l = Ok rows ->
  length rows = length l
  /\ forall i x, l !! i = Some x ->
                 exists y, f x = Ok y /\ rows !! i = Some y.
Proof.
  induction l as [|x l IH]; intros rows H.
  - injection H as <-. split; [reflexivity|]. intros i x Hx. discriminate.
  - cbn [map_outcome] in H. destruct (f x) as [y|e] eqn:Hy; [|discriminate].
    cbn [obind] in H. destruct (map_outcome f l) as [ys|e]; [|discriminate].
    injection H as <-. destruct (IH ys eq_refl) as [Hl Hi].
    split; [simpl; now rewrite Hl|].
    intros [|i] x' Hx'.
    + injection Hx' as <-. now exists y.
    + now apply Hi.
Qed.

(** X22. The loop of [generate_report] that builds [report_data] makes
    one row per record, included or not, in the order of the list.  The
    loop raises exactly when some judgment is not a dict or has techniques
    that cannot be joined (a list with an item that is not a string, a
    number, a boolean or null); on an empty list it makes no row and does
    not raise.  Each row carries the record's file name and path, and the
    inclusion value, the score and the recommendation of its judgment or
    their defaults.  What pandas does with the rows afterwards is not part
    of the statement. *)
Theorem report_data_rows (ps : list paper) :
  is_ok (report_data ps) = forallb reportable ps
  /\ forall rows,
       report_data ps = Ok rows ->
       length rows = length ps
       /\ forall i p, ps !! i = Some p ->
            exists row,
              rows !! i = Some row
              /\ row_filename row = filename p
              /\ row_filepath row = filepath p
              /\ row_meets_inclusion row = inclusion_value p
              /\ row_overall_score row = score_value p
              /\ row_recommendation row
                 = field_or "recommendation" (JStr "Unknown") p.
Proof.
  split.
  - unfold report_data. rewrite map_outcome_ok_iff.
    induction ps as [|p ps IH]; [reflexivity|].
    cbn [forallb]. now rewrite paper_data_ok_iff, IH.
  - intros rows H. destruct (map_outcome_lookup _ _ _ H) as [Hl Hi].
    split; [exact Hl|]. intros i p Hp.
    destruct (Hi i p Hp) as (row & Hrow & Hr).
    exists row. split; [exact Hr|]. now apply paper_data_fields.
Qed.

Lemma report_data_rows_witness :
  is_ok (report_data [paper_A; paper_F]) = true
  /\ exists rows, report_data [paper_A; paper_F] = Ok rows
                  /\ length rows = 2%nat.
Proof.
  split; [reflexivity|].
  destruct (report_data [paper_A; paper_F]) as [rows|e] eqn:E;
    [|discriminate].
  exists rows. split; [reflexivity|].
  exact (proj1 (proj2 (report_data_rows [paper_A; paper_F]) rows E)).
Defined.

(** X23. A technique field that is a string instead of a list is read
    character by character: the report row shows the characters joined by
    commas, and the technique counts count every character. *)
Theorem techniques_string_by_character (p : paper) (s : string)
  (counts : list (json * Z)) :
  field "ai_techniques" p = Some (JStr s) ->
  (exists row, paper_data p = Ok row
               /\ row_ai_techniques row = join ", " (chars s))
  /\ count_techniques counts [p] = count_keys counts (map JStr (chars s)).
Proof.
  unfold field, paper_data. destruct (scores p) as [| | | | |kvs] eqn:Hs;
    try discriminate.
  intros H. split.
  - cbn [dict_get obind]. rewrite H.
    cbn [py_join py_iter obind]. rewrite str_items_chars. cbn [obind].
    eexists. split; reflexivity.
  - cbn [count_techniques]. rewrite Hs. cbn [dict_get obind]. rewrite H.
    cbn [py_iter obind].
    now destruct (count_keys counts (map JStr (chars s))).
Qed.

Lemma techniques_string_by_character_witness :
  (exists row, paper_data paper_G = Ok row
               /\ row_ai_techniques row = "M, L")
  /\ count_techniques [] [paper_G] = Ok [(JStr "M", 1); (JStr "L", 1)].
Proof.
  destruct (techniques_string_by_character paper_G "ML" [] eq_refl)
    as [(row & Hrow & Hj) Hc].
  split.
  - exists row. split; [exact Hrow|]. rewrite Hj. reflexivity.
  - rewrite Hc. reflexivity.
Defined.

Section Reports_after_evaluation.

Variable service : Type.
Variable create : service -> string -> string -> outcome string * service.
Variable json_loads : string -> outcome json.
Implicit Type s : state service.

(** X24. A record whose Judge call failed appears in the report, at its
    place, with inclusion false, every score 0, recommendation "Error" and
    empty domain, techniques and summary. *)
Theorem report_data_after_failure s (i : nat) (q : paper) (e : exn)
  (rows : list report_row) :
  papers s !! i = Some q ->
  verdicts create json_loads (client s) (papers s) !! i = Some (Raise e) ->
  report_data (papers (snd (analyze_papers create json_loads s))) = Ok rows ->
  rows !! i = Some (failure_row q).
Proof.
  intros Hq Hv Hrows.
  destruct (analyze_papers_papers service create json_loads s)
    as (b & s' & Hrun & Hp).
  rewrite Hrun in Hrows. cbn [snd] in Hrows.
  destruct (judged_papers_lookup service create json_loads (client s) _ _ _ Hq)
    as (r & Hr & Hj).
  rewrite Hv in Hr. injection Hr as <-. cbn [judgment] in Hj.
  rewrite <- Hp in Hj.
  destruct (map_outcome_lookup _ _ _ Hrows) as [_ Hi].
  destruct (Hi i _ Hj) as (row & Hrow & Hlook).
  rewrite Hlook. f_equal.
  cbv in Hrow. injection Hrow as <-. reflexivity.
Qed.

(** ** [main] *)

Lemma main_run exists_dir api_key fs reports s :
  main create json_loads exists_dir api_key fs reports s
  = if negb exists_dir then
      (Ok tt,
       State []
             (trace s
              ++ [EPrint "Error: Papers directory not found at papers";
                  EPrint "Please create a folder named 'papers' and place your research papers inside it."])
             (client s))
    else if match api_key with
            | Some key => String.eqb key ""
            | None => true
            end then
      (Ok tt,
       State []
             (trace s
              ++ [EPrint "Error: OpenAI API key not found.";
                  EPrint "Please set your API key as an environment variable:";
                  EPrint "export OPENAI_API_KEY=your_api_key"])
             (client s))
    else
      let s1 := snd (load_papers fs "papers" s) in
      match papers s1 with
      | [] =>
        (Ok tt,
         State [] (trace s1
                   ++ [EPrint "No PDF papers found in the 'papers' folder. Please add some PDF files."])
               (client s))
      | _ => reports (snd (analyze_papers create json_loads s1))
      end.
Proof.
  unfold main. unfold bind at 1, put_papers.
  destruct exists_dir; cbn [negb].
  - destruct (match api_key with
              | Some key => String.eqb key ""
              | None => true
              end).
    + unfold bind, print, emit. cbn [papers trace client].
      now rewrite <- !app_assoc.
    + unfold bind at 1. rewrite !load_papers_run. cbn [snd papers trace client].
      destruct (flat_map visit_papers (walk "papers" fs)) as [|p0 ps] eqn:Hl.
      * cbn [length Nat.ltb Nat.leb negb]. unfold print, emit.
        cbn [papers trace client]. reflexivity.
      * cbn [length Nat.ltb Nat.leb negb]. unfold bind.
        rewrite !analyze_papers_run. cbn [papers trace client negb snd].
        reflexivity.
  - unfold bind, print, emit. cbn [papers trace client].
    now rewrite <- !app_assoc.
Qed.

(** X25. Without the papers directory, or without an API key (unset or
    empty), [main] only prints its message: no record is loaded, no
    request is made, and the reports are not run, whatever they are. *)
Theorem main_preconditions exists_dir api_key fs reports s :
  exists_dir = false \/ api_key = None \/ api_key = Some "" ->
  exists evs,
    main create json_loads exists_dir api_key fs reports s
    = (Ok tt, State [] (trace s ++ evs) (client s))
    /\ List.filter is_request evs = []
    /\ Forall (fun ev => exists text, ev = EPrint text) evs.
Proof.
  intros H. rewrite main_run. destruct exists_dir; cbn [negb].
  - destruct H as [H|[->| ->]]; [discriminate| |]; cbn [String.eqb];
      eexists; (split; [reflexivity|]); (split; [reflexivity|]);
      repeat constructor; eexists; reflexivity.
  - eexists. split; [reflexivity|]. split; [reflexivity|].
    repeat constructor; eexists; reflexivity.
Qed.

(** X26. When the directory holds no PDF file that yields text, [main]
    stops after loading: the record list is empty, the Judge is not called
    and the reports are not run. *)
Theorem main_empty_corpus api_key key fs reports s :
  api_key = Some key -> key <> "" ->
  omap record_of (pdf_files "papers" fs) = [] ->
  exists evs,
    main create json_loads true api_key fs reports s
    = (Ok tt, State [] (trace s ++ evs) (client s))
    /\ List.filter is_request evs = [].
Proof.
  intros -> Hk Hnone. rewrite main_run. cbn [negb].
  destruct (String.eqb_spec key ""); [contradiction|].
  cbv zeta. rewrite load_papers_run. cbn [snd papers trace].
  rewrite visit_papers_records. fold (pdf_files "papers" fs).
  rewrite Hnone. cbn [length].
  eexists. split; [now rewrite <- !app_assoc|].
  rewrite !List.filter_app, visit_events_no_request. reflexivity.
Qed.

(** X27. Otherwise [main] evaluates what it loaded and hands over to the
    reports: the reports run from the state in which every loaded record,
    in load order, carries the judgment of its own Judge call, and exactly
    one request per loaded record has been made. *)
Theorem main_pipeline api_key key fs reports s :
  api_key = Some key -> key <> "" ->
  omap record_of (pdf_files "papers" fs) <> [] ->
  exists s2 evs,
    main create json_loads true api_key fs reports s = reports s2
    /\ papers s2
       = judged_papers create json_loads (client s)
           (omap record_of (pdf_files "papers" fs))
    /\ trace s2 = (trace s ++ evs)%list
    /\ List.filter is_request evs
       = map request_of (omap record_of (pdf_files "papers" fs)).
Proof.
  intros -> Hk Hsome. rewrite main_run. cbn [negb].
  destruct (String.eqb_spec key ""); [contradiction|].
  cbv zeta. rewrite load_papers_run. cbn [snd papers].
  rewrite analyze_papers_run. cbn [papers trace client].
  rewrite visit_papers_records. fold (pdf_files "papers" fs).
  destruct (omap record_of (pdf_files "papers" fs)) as [|p0 ps] eqn:Hl;
    [contradiction|].
  do 2 eexists. split; [reflexivity|]. cbn [snd papers trace].
  split; [reflexivity|]. split; [now rewrite <- !app_assoc|].
  rewrite !List.filter_app, visit_events_no_request.
  cbn [List.filter is_request app].
  apply loop_events_request_list, verdicts_length.
Qed.

End Reports_after_evaluation.

(** ** The further statements on concrete inputs *)

Lemma analyze_papers_overwrites_witness :
  papers (snd (analyze_papers flaky_create loads_object two_loaded))
  = papers (snd (analyze_papers flaky_create loads_object two_judged_before)).
Proof.
  apply (analyze_papers_overwrites nat flaky_create loads_object
           two_loaded two_judged_before).
  - reflexivity.
  - repeat constructor.
Defined.

Lemma rank_papers_after_analysis_witness :
  exists b s' ranked,
    analyze_papers flaky_create loads_object two_loaded = (Ok b, s')
    /\ rank_papers (papers s') = Ok ranked.
Proof.
  destruct (rank_papers_after_analysis nat flaky_create loads_object
              two_loaded eq_refl)
    as (b & s' & ranked & Hrun & Hr & _).
  now exists b, s', ranked.
Defined.

Lemma analyze_papers_all_failed_witness :
  exists b s',
    analyze_papers down_create loads_object two_loaded = (Ok b, s')
    /\ rank_papers (papers s') = Ok []
    /\ generate_detailed_review_summary (papers s') = Ok None.
Proof.
  destruct (analyze_papers_all_failed nat down_create loads_object
              two_loaded 10 eq_refl)
    as (b & s' & Hrun & Hr & _ & Hs).
  now exists b, s'.
Defined.

Lemma report_data_after_failure_witness :
  [failure_row (Paper "a.pdf" "papers/a.pdf" "Abstract" (JObj []));
   ReportRow "B.PDF" "papers/cardiology/B.PDF" (JBool false) (JNum 0)
     (JNum 0) (JNum 0) (JNum 0) (JNum 0) (JStr "Unknown") (JStr "") ""
     (JStr "")] !! 0%nat
  = Some (failure_row (Paper "a.pdf" "papers/a.pdf" "Abstract" (JObj []))).
Proof.
  apply (report_data_after_failure nat flaky_create loads_object two_loaded
           0%nat (Paper "a.pdf" "papers/a.pdf" "Abstract" (JObj []))
           "Connection error."); reflexivity.
Defined.

Lemma main_preconditions_witness :
  exists evs,
    main flaky_create loads_object true (Some "") open_tree announce_reports
      fresh
    = (Ok tt, State [] evs 0%nat)
    /\ List.filter is_request evs = [].
Proof.
  destruct (main_preconditions nat flaky_create loads_object true (Some "")
              open_tree announce_reports fresh)
    as (evs & Hrun & Hreq & _).
  - right. right. reflexivity.
  - exists evs. split; [exact Hrun|exact Hreq].
Defined.

Lemma main_empty_corpus_witness :
  exists evs,
    main flaky_create loads_object true (Some "sk-test") no_pdf_tree
      announce_reports fresh
    = (Ok tt, State [] evs 0%nat)
    /\ List.filter is_request evs = [].
Proof.
  destruct (main_empty_corpus nat flaky_create loads_object (Some "sk-test")
              "sk-test" no_pdf_tree announce_reports fresh)
    as (evs & Hrun & Hreq).
  - reflexivity.
  - discriminate.
  - reflexivity.
  - exists evs. split; [exact Hrun|exact Hreq].
Defined.

Lemma main_pipeline_witness :
  exists s2,
    main flaky_create loads_object true (Some "sk-test") open_tree
      announce_reports fresh
    = announce_reports s2
    /\ length (papers s2) = 2%nat.
Proof.
  destruct (main_pipeline nat flaky_create loads_object (Some "sk-test")
              "sk-test" open_tree announce_reports fresh)
    as (s2 & evs & Hrun & Hp & _).
  - reflexivity.
  - discriminate.
  - discriminate.
  - exists s2. split; [exact Hrun|]. rewrite Hp.
    rewrite (judged_papers_length nat flaky_create loads_object). reflexivity.
Defined.
